(** * Chat orchestration and history windowing of the Angular/Firebase chat client

    A shallow embedding of
      - [src/app/models/chat.ts]          (the [ChatMessage] record),
      - [src/app/services/openai.ts]      ([OpenAIService]),
      - [src/app/services/gemini.ts]      ([GeminiService.convertHistoryToGemini]),
      - [src/app/services/firestore.ts]   ([FirestoreService.saveMessage]),
      - [src/app/services/chat.ts]        ([ChatService]),
      - [src/app/services/auth.ts]        ([AuthService]),
      - [src/app/components/chat/chat.ts] (the [Chat] component),
    followed by the properties of the specification that concern them.

    Conventions.  A JavaScript string is a [string] of code units below 256;
    a [Date] is its number of milliseconds; an array is a [list]; a
    [BehaviorSubject] is its current value, and each call of [next] is
    recorded in an event log so that the order of emissions and of awaited
    calls can be stated.  [ChatService.sendMessage] is given twice: as the
    whole call, from its start to its settling, and in [Tasks] as a task
    that is suspended wherever it awaits the network, so that the systems
    it sleeps in and calls that overlap can be stated; the two are shown to
    agree. *)

From Stdlib Require Import String Ascii List ZArith Lia Bool Sorted Permutation
  DecimalString.
Import ListNotations.

Local Open Scope string_scope.
Local Open Scope list_scope.
Local Open Scope nat_scope.

(** ** JavaScript primitives used by the services *)

Module JS.

(** [Array.prototype.slice(start)]: a negative [start] counts from the end,
    and both directions are clamped to the bounds of the array. *)
Definition slice {A : Type} (start : Z) (l : list A) : list A :=
  let len := Z.of_nat (length l) in
  let k := if (start <? 0)%Z then Z.max (len + start) 0 else Z.min start len in
  skipn (Z.to_nat k) l.

(** WhiteSpace and LineTerminator code units below 256:
    TAB, LF, VT, FF, CR, SP and NBSP. *)
Definition isWhiteSpace (c : ascii) : bool :=
  let n := nat_of_ascii c in
  ((9 <=? n) && (n <=? 13)) || (n =? 32) || (n =? 160).

Fixpoint trimStart (s : string) : string :=
  match s with
  | EmptyString => EmptyString
  | String c s' => if isWhiteSpace c then trimStart s' else s
  end.

Fixpoint trimEnd (s : string) : string :=
  match s with
  | EmptyString => EmptyString
  | String c s' =>
      match trimEnd s' with
      | EmptyString => if isWhiteSpace c then EmptyString else String c EmptyString
      | t => String c t
      end
  end.

(** [String.prototype.trim] *)
Definition trim (s : string) : string := trimEnd (trimStart s).

Definition LF : string := String (ascii_of_nat 10) EmptyString.

(** Truthiness of a string: the empty string is the only falsy one. *)
Definition truthy (s : string) : bool :=
  match s with EmptyString => false | _ => true end.

End JS.

(** ** models/chat.ts and the part of the Firebase user that is read *)

Module Models.

Inductive MessageType := user | assistant.
Inductive MessageStatus := sending | sent | error | temporary.

Definition Date := Z.

Record ChatMessage := {
  id : option string;
  userId : string;
  content : string;
  sentAt : Date;
  type : MessageType;
  status : option MessageStatus
}.

(** The Firebase [User]; the services read its [uid] only. *)
Record User := { uid : string; email : string }.

(** A JavaScript [Error] object, identified by its message. *)
Record Error := { message : string }.

End Models.

(** ** services/openai.ts: interfaces, history conversion and the pure
       stages of the request pipe *)

Module OpenAI.

Inductive Role := system | user | assistant.

Record MessageOpenAI := { role : Role; content : string }.

Definition isAssistant (r : Role) : bool :=
  match r with assistant => true | _ => false end.

(** [msg => ({ role: msg.type === 'user' ? 'user' : 'assistant',
               content: msg.content })] *)
Definition toOpenAI (msg : Models.ChatMessage) : MessageOpenAI :=
  {| role := match Models.type msg with
             | Models.user => user
             | _ => assistant
             end;
     content := Models.content msg |}.

Definition convertHistoryToOpenAI (messages : list Models.ChatMessage)
  : list MessageOpenAI :=
  let convertedHistory := map toOpenAI messages in
  if (8 <? length convertedHistory)%nat then
    let lastMessages := JS.slice (-6) convertedHistory in
    if ((0 <? length lastMessages)%nat
        && match nth_error lastMessages 0 with
           | Some m => isAssistant (role m)
           | None => false
           end)%bool
    then JS.slice 1 lastMessages
    else lastMessages
  else convertedHistory.

Record Config := { apiUrl : string; apiKey : string; model : string }.

(** The request body; [temperature] is the constant 0.7 and is left out. *)
Record OpenAIRequest := {
  req_model : string;
  req_messages : list MessageOpenAI;
  max_tokens : Z
}.

Record ChoiceMessage := { msg_role : string; msg_content : string }.
Record Choice := { choice_message : option ChoiceMessage; finish_reason : string }.

(** What [http.post] delivers: a response body, or an [HttpErrorResponse]
    with its [status] and the optional [error.error.message] of its body. *)
Inductive HttpResult :=
| HttpResponse (choices : list Choice)
| HttpFailure (httpStatus : Z) (apiMessage : option string).

Definition systemMessage : MessageOpenAI :=
  {| role := system;
     content :=
       ("You are a virtual assistant who is helpful and friendly. Always respond in Spanish clearly and concisely."
        ++ JS.LF ++
        "               You specialize in helping with general questions, programming, and technology."
        ++ JS.LF ++
        "               Maintain a professional but approachable tone.")%string |}.

Definition notConfigured (cfg : Config) : bool :=
  negb (JS.truthy (apiKey cfg)) || String.eqb (apiKey cfg) "TU_API_KEY_DE_OPENAI".

Definition buildRequest (cfg : Config) (message : string)
    (previousHistory : list MessageOpenAI) : OpenAIRequest :=
  {| req_model := model cfg;
     req_messages := systemMessage :: previousHistory
                     ++ [ {| role := user; content := message |} ];
     max_tokens := 800 |}.

(** The [map] operator of the pipe. *)
Definition extractContent (choices : list Choice) : string + Models.Error :=
  match choices with
  | choice :: _ =>
      match choice_message choice with
      | Some m =>
          if JS.truthy (msg_content m) then
            inl (if String.eqb (finish_reason choice) "length"
                 then (msg_content m ++ JS.LF ++ JS.LF ++
                       "[Note: Response truncated due to token limit. You can ask me to continue.]")%string
                 else msg_content m)
          else inr {| Models.message := "OpenAI response does not contain valid message content" |}
      | None => inr {| Models.message := "OpenAI response does not contain valid message content" |}
      end
  | [] => inr {| Models.message := "OpenAI response does not have the expected format" |}
  end.

(** The [catchError] operator of the pipe, applied to a failure with the
    given [status] and API message (both absent for an [Error] thrown by
    [map], whose [status] is [undefined]). *)
Definition describeError (httpStatus : option Z) (apiMessage : option string)
  : Models.Error :=
  let statusIs n := match httpStatus with Some k => (k =? n)%Z | None => false end in
  {| Models.message :=
       if statusIs 400%Z then "Invalid request to OpenAI. Check the configuration."
       else if statusIs 401%Z then "Invalid or unauthorized OpenAI API key."
       else if statusIs 429%Z then "You have exceeded the request limit. Please try again later."
       else if statusIs 500%Z then "OpenAI server error. Please try again later."
       else match apiMessage with
            | Some m => if JS.truthy m then m else "Error connecting to OpenAI"
            | None => "Error connecting to OpenAI"
            end |}.

(** The value or error with which the observable of [sendMessage] settles
    once the HTTP call has settled with [r]. *)
Definition settle (r : HttpResult) : string + Models.Error :=
  match r with
  | HttpResponse choices =>
      match extractContent choices with
      | inl text => inl text
      | inr _ => inr (describeError None None)
      end
  | HttpFailure st m => inr (describeError (Some st) m)
  end.

Definition notConfiguredError : Models.Error :=
  {| Models.message := "OpenAI API Key is not configured. Please set your key in environment.ts" |}.

Definition verifyConfiguration (cfg : Config) : bool :=
  JS.truthy (apiKey cfg) && JS.truthy (apiUrl cfg) && JS.truthy (model cfg).

End OpenAI.

(** ** services/gemini.ts: interfaces and history conversion *)

Module Gemini.

Inductive Role := user | model.

Record PartGemini := { text : string }.
Record ContentGemini := { role : Role; parts : list PartGemini }.

Definition isModel (r : Role) : bool :=
  match r with model => true | _ => false end.

Definition toGemini (msg : Models.ChatMessage) : ContentGemini :=
  {| role := match Models.type msg with
             | Models.user => user
             | _ => model
             end;
     parts := [ {| text := Models.content msg |} ] |}.

Definition convertHistoryToGemini (messages : list Models.ChatMessage)
  : list ContentGemini :=
  let convertedHistory := map toGemini messages in
  if (8 <? length convertedHistory)%nat then
    let lastMessages := JS.slice (-6) convertedHistory in
    if ((0 <? length lastMessages)%nat
        && match nth_error lastMessages 0 with
           | Some m => isModel (role m)
           | None => false
           end)%bool
    then JS.slice 1 lastMessages
    else lastMessages
  else convertedHistory.

End Gemini.

(** ** The world around the services and asynchronous computations *)

Module Runtime.
Import Models.

(** The document that [saveMessage] hands to [addDoc]. *)
Record StoredMessage := {
  stored_userId : string;
  stored_content : string;
  stored_type : MessageType;
  stored_status : MessageStatus;
  stored_sentAt : Date
}.

Inductive Event :=
| MessagesNext (messages : list ChatMessage)   (* subjectMessages.next(messages) *)
| RespondingNext (responding : bool)           (* assistantResponding.next(responding) *)
| SaveMessage (m : ChatMessage)                (* firestoreService.saveMessage(m) *)
| MockSaveMessage (m : ChatMessage)            (* firestoreServiceMock.saveMessage(m) *)
| OpenAISendMessage (content : string)
    (history : list OpenAI.MessageOpenAI)      (* openaiService.sendMessage(content, history) *)
| HttpPost (req : OpenAI.OpenAIRequest)        (* http.post(apiUrl, req) *)
| ConsoleError (text : string).                (* console.error(text, ...) *)

Record System := {
  currentUser : option User;                   (* auth.currentUser *)
  openaiConfig : OpenAI.Config;                (* environment.openai *)
  messagesCollection : list StoredMessage;     (* the Firestore collection 'messages' *)
  clock : Date;                                (* what new Date() reads *)
  subjectMessages : list ChatMessage;          (* subjectMessages.value *)
  loadingHistory : bool;
  assistantResponding : bool                   (* assistantResponding.value *)
}.

Inductive Settled (A : Type) :=
| Resolved (a : A)
| Rejected (e : Error).
Arguments Resolved {A} a.
Arguments Rejected {A} e.

Record Run (A : Type) := mkRun {
  outcome : Settled A;
  final : System;
  trace : list Event
}.
Arguments mkRun {A} outcome final trace.
Arguments outcome {A} r.
Arguments final {A} r.
Arguments trace {A} r.

(** A computation of the single JavaScript thread: it settles with a value
    or an error, changes the system, and leaves a trace of events. *)
Definition Async (A : Type) : Type := System -> Run A.

Definition ret {A} (a : A) : Async A :=
  fun s => mkRun (Resolved a) s [].

Definition throw {A} (e : Error) : Async A :=
  fun s => mkRun (Rejected e) s [].

(** The run [r] taking place after the events [t]. *)
Definition after {A} (t : list Event) (r : Run A) : Run A :=
  match r with
  | mkRun o s' t' => mkRun o s' (t ++ t')
  end.

Definition bind {A B} (c : Async A) (k : A -> Async B) : Async B :=
  fun s =>
    match c s with
    | mkRun (Resolved a) s' t => after t (k a s')
    | mkRun (Rejected e) s' t => mkRun (Rejected e) s' t
    end.

(** [try { body } catch (e) { handler e }] *)
Definition try_catch {A} (body : Async A) (handler : Error -> Async A) : Async A :=
  fun s =>
    match body s with
    | mkRun (Resolved a) s' t => mkRun (Resolved a) s' t
    | mkRun (Rejected e) s' t => after t (handler e s')
    end.

(** [try { body } finally { finalizer }]: the finalizer runs in all cases,
    and the outcome of the body stands unless the finalizer throws. *)
Definition try_finally {A} (body : Async A) (finalizer : Async unit) : Async A :=
  fun s =>
    match body s with
    | mkRun o s' t =>
        match finalizer s' with
        | mkRun (Resolved _) s'' t' => mkRun o s'' (t ++ t')
        | mkRun (Rejected e) s'' t' => mkRun (Rejected e) s'' (t ++ t')
        end
    end.

Definition emit (e : Event) : Async unit :=
  fun s => mkRun (Resolved tt) s [e].

Definition read {A} (f : System -> A) : Async A :=
  fun s => mkRun (Resolved (f s)) s [].

Definition update (f : System -> System) : Async unit :=
  fun s => mkRun (Resolved tt) (f s) [].

Declare Scope async_scope.
Delimit Scope async_scope with async.
Notation "x <- c ;; k" := (bind c (fun x => k))
  (at level 61, c at next level, right associativity) : async_scope.
Notation "c ;; k" := (bind c (fun _ => k))
  (at level 61, right associativity) : async_scope.

Definition set_subjectMessages (l : list ChatMessage) (s : System) : System :=
  {| currentUser := currentUser s; openaiConfig := openaiConfig s;
     messagesCollection := messagesCollection s; clock := clock s;
     subjectMessages := l; loadingHistory := loadingHistory s;
     assistantResponding := assistantResponding s |}.

Definition set_assistantResponding (b : bool) (s : System) : System :=
  {| currentUser := currentUser s; openaiConfig := openaiConfig s;
     messagesCollection := messagesCollection s; clock := clock s;
     subjectMessages := subjectMessages s; loadingHistory := loadingHistory s;
     assistantResponding := b |}.

Definition set_loadingHistory (b : bool) (s : System) : System :=
  {| currentUser := currentUser s; openaiConfig := openaiConfig s;
     messagesCollection := messagesCollection s; clock := clock s;
     subjectMessages := subjectMessages s; loadingHistory := b;
     assistantResponding := assistantResponding s |}.

Definition add_document (d : StoredMessage) (s : System) : System :=
  {| currentUser := currentUser s; openaiConfig := openaiConfig s;
     messagesCollection := messagesCollection s ++ [d]; clock := clock s;
     subjectMessages := subjectMessages s; loadingHistory := loadingHistory s;
     assistantResponding := assistantResponding s |}.

Definition advance_clock (ms : Z) (s : System) : System :=
  {| currentUser := currentUser s; openaiConfig := openaiConfig s;
     messagesCollection := messagesCollection s; clock := (clock s + ms)%Z;
     subjectMessages := subjectMessages s; loadingHistory := loadingHistory s;
     assistantResponding := assistantResponding s |}.

Local Open Scope async_scope.

(** [subjectMessages.next(l)] and [assistantResponding.next(b)] *)
Definition subjectMessages_next (l : list ChatMessage) : Async unit :=
  update (set_subjectMessages l) ;; emit (MessagesNext l).

Definition assistantResponding_next (b : bool) : Async unit :=
  update (set_assistantResponding b) ;; emit (RespondingNext b).

(** [console.error(text, ...)]; the texts are given without the mark that
    leads them in the source, which lies outside the code units modelled. *)
Definition console_error (text : string) : Async unit :=
  emit (ConsoleError text).

(** [new Date()] *)
Definition new_Date : Async Date := read clock.

(** The [next] callback with which [ChatService.initializeChat] subscribes
    to the live query of [getUserMessages]:
    [messages => { subjectMessages.next(messages); loadingHistory = false }]. *)
Definition historyNext (messages : list ChatMessage) : Async unit :=
  subjectMessages_next messages ;; update (set_loadingHistory false).

(** What happens while the thread is suspended on a promise that needs the
    network: time passes, the live query may deliver a snapshot of the
    user's history to [historyNext], and the promise settles with
    [result].  Other calls of the service that could run meanwhile (a second
    [sendMessage], [clearChat]) are not part of a suspension. *)
Record Suspension (A : Type) := {
  elapsed : Z;
  snapshot : option (list ChatMessage);
  result : A
}.
Arguments elapsed {A} s.
Arguments snapshot {A} s.
Arguments result {A} s.

Definition await {A} (w : Suspension A) : Async A :=
  update (advance_clock (elapsed w)) ;;
  match snapshot w with
  | Some messages => historyNext messages
  | None => ret tt
  end ;;
  ret (result w).

End Runtime.

(** ** services/openai.ts: the class *)

Module OpenAIService.
Import Models Runtime.
Local Open Scope async_scope.

Definition convertHistoryToOpenAI := OpenAI.convertHistoryToOpenAI.

(** [sendMessage(message, previousHistory)], followed to the point where
    its observable has delivered its first value or its error; [w] is the
    suspension on the HTTP call. *)
Definition sendMessage (message : string)
    (previousHistory : list OpenAI.MessageOpenAI)
    (w : Suspension OpenAI.HttpResult) : Async string :=
  emit (OpenAISendMessage message previousHistory) ;;
  cfg <- read openaiConfig ;;
  if OpenAI.notConfigured cfg then
    console_error "OpenAI API Key is not configured properly." ;;
    throw OpenAI.notConfiguredError
  else
    emit (HttpPost (OpenAI.buildRequest cfg message previousHistory)) ;;
    r <- await w ;;
    match OpenAI.settle r with
    | inl contentResponse => ret contentResponse
    | inr e => console_error "Error communicating with OpenAI:" ;; throw e
    end.

Definition verifyConfiguration : Async bool :=
  cfg <- read openaiConfig ;; ret (OpenAI.verifyConfiguration cfg).

End OpenAIService.

Module GeminiService.
Definition convertHistoryToGemini := Gemini.convertHistoryToGemini.
End GeminiService.

(** ** The [Timestamp] of the Firestore SDK *)

Module Timestamp.
Import Models.

(** [Timestamp.fromDate(date)] keeps the whole seconds of the date (and the
    rest as nanoseconds), and the constructor of [Timestamp] throws when
    the seconds lie before the year 1 or after the year 9999. *)
Definition seconds (d : Date) : Z := (d / 1000)%Z.

Definition inRange (d : Date) : bool :=
  ((-62135596800 <=? seconds d) && (seconds d <? 253402300800))%Z.

Definition outOfRange (d : Date) : Error :=
  {| message := ("Timestamp seconds out of range: "
                 ++ NilZero.string_of_int (Z.to_int (seconds d)))%string |}.

End Timestamp.

(** ** services/firestore.ts *)

Module FirestoreService.
Import Models Runtime.
Local Open Scope async_scope.

Definition messageToSave (message : ChatMessage) : StoredMessage :=
  {| stored_userId := userId message;
     stored_content := content message;
     stored_type := type message;
     stored_status := match status message with Some st => st | None => sent end;
     stored_sentAt := sentAt message |}.

(** [saveMessage(message)]; [w] is the suspension on [addDoc], which
    settles with the error of the rejection, if any.  A message type is
    always present in a [ChatMessage], so the third check cannot fail; the
    document is built before [addDoc] is called, and
    [Timestamp.fromDate(message.sentAt)] may throw there. *)
Definition saveMessage (message : ChatMessage)
    (w : Suspension (option Error)) : Async unit :=
  emit (SaveMessage message) ;;
  try_catch
    (if negb (JS.truthy (userId message)) then
       throw {| message := "userId is required" |}
     else if negb (JS.truthy (content message)) then
       throw {| message := "content is required" |}
     else if negb (Timestamp.inRange (sentAt message)) then
       throw (Timestamp.outOfRange (sentAt message))
     else
       r <- await w ;;
       match r with
       | None => update (add_document (messageToSave message))
       | Some e => throw e
       end)
    (fun e =>
       console_error "Error saving Firestore message:" ;;
       console_error "Error details:" ;;
       throw e).

End FirestoreService.

(** ** services/chat.ts *)

Module ChatService.
Import Models Runtime.
Local Open Scope async_scope.

(** [firestoreServiceMock.saveMessage]: [async (message) => Promise.resolve()] *)
Definition firestoreServiceMock_saveMessage (m : ChatMessage) : Async unit :=
  emit (MockSaveMessage m) ;; ret tt.

(** [authService.getCurrentUser()] *)
Definition getCurrentUser : Async (option User) := read currentUser.

Definition notAuthenticated : Error := {| message := "User not authenticated" |}.

Definition apology : string :=
  "Sorry, there was a problem processing your message. Please try again.".

(** The three suspensions of one [sendMessage] that need the network. *)
Record SendWorld := {
  saveUserMessage : Suspension (option Error);
  generation : Suspension OpenAI.HttpResult;
  saveAssistantMessage : Suspension (option Error)
}.

(** [initializeChat] up to its return; the callbacks of its subscription
    run later ([Runtime.historyNext], and [historyError] below). *)
Definition initializeChat (userId : string) : Async unit :=
  loading <- read loadingHistory ;;
  if loading then ret tt
  else update (set_loadingHistory true).

Definition historyError : Async unit :=
  console_error "Error loading history:" ;;
  update (set_loadingHistory false) ;;
  subjectMessages_next [].

Definition sendMessage (messageContent : string) (w : SendWorld) : Async unit :=
  currentUser <- getCurrentUser ;;
  match currentUser with
  | None =>
      console_error "No authenticated user" ;;
      throw notAuthenticated
  | Some currentUser =>
      if negb (JS.truthy (JS.trim messageContent)) then ret tt
      else
        now <- new_Date ;;
        let userMessage :=
          {| id := None; userId := uid currentUser;
             content := JS.trim messageContent; sentAt := now;
             type := user; status := Some sending |} in
        try_finally
          (try_catch
             (userMessages <- read subjectMessages ;;
              let newMessages := userMessages ++ [userMessage] in
              subjectMessages_next newMessages ;;
              try_catch
                (FirestoreService.saveMessage userMessage (saveUserMessage w))
                (fun firestoreError => ret tt) ;;
              assistantResponding_next true ;;
              currentMessages <- read subjectMessages ;;
              let openaiHistory :=
                OpenAIService.convertHistoryToOpenAI (JS.slice (-6) currentMessages) in
              assistantResponse <-
                OpenAIService.sendMessage messageContent openaiHistory (generation w) ;;
              now <- new_Date ;;
              let assistantMessage :=
                {| id := None; userId := uid currentUser;
                   content := assistantResponse; sentAt := now;
                   type := assistant; status := Some sent |} in
              updatedMessages <- read subjectMessages ;;
              let newMessages2 := updatedMessages ++ [assistantMessage] in
              subjectMessages_next newMessages2 ;;
              try_catch
                (FirestoreService.saveMessage assistantMessage (saveAssistantMessage w))
                (fun firestoreError => ret tt))
             (fun err =>
                console_error "Error processing message:" ;;
                now <- new_Date ;;
                let errorMessage :=
                  {| id := None; userId := uid currentUser;
                     content := apology; sentAt := now;
                     type := assistant; status := Some error |} in
                try_catch
                  (firestoreServiceMock_saveMessage errorMessage)
                  (fun saveErrorError =>
                     console_error "Error saving error message:" ;;
                     currentMessages <- read subjectMessages ;;
                     subjectMessages_next (currentMessages ++ [errorMessage])) ;;
                throw err))
          (assistantResponding_next false)
  end.

Definition getMessages : Async (list ChatMessage) := read subjectMessages.

Definition clearChat : Async unit := subjectMessages_next [].

Definition isChatReady : Async bool :=
  u <- getCurrentUser ;;
  let userAuthenticated := match u with Some _ => true | None => false end in
  openaiConfigured <- OpenAIService.verifyConfiguration ;;
  ret (userAuthenticated && openaiConfigured)%bool.

(** The system after a sequence of [sendMessage] calls, each awaited by its
    caller (who catches its rejection, as [Chat.sendMessage] does). *)
Fixpoint afterSends (sends : list (string * SendWorld)) (s : System) : System :=
  match sends with
  | [] => s
  | (text, w) :: rest => afterSends rest (final (sendMessage text w s))
  end.

End ChatService.

(** ** The services as tasks of the event loop

    An [async] function runs on the one thread until it awaits a promise
    that needs the network; it is then suspended, other code may run, and
    it goes on when the promise has settled.  The same services once more,
    with their suspensions made explicit. *)

Module Tasks.
Import Models Runtime.

(** How far a call has come when it gives up the thread: it has finished,
    or it waits for [addDoc] to store a document, or for the answer to a
    posted request. *)
#[warnings="-register-all"] Inductive Pending (A : Type) : Type :=
| Finished (a : A)
| OnAddDoc (d : StoredMessage)
    (resume : option Error -> System -> Run (Pending A))
| OnPost (req : OpenAI.OpenAIRequest)
    (resume : OpenAI.HttpResult -> System -> Run (Pending A)).
Arguments Finished {A} a.
Arguments OnAddDoc {A} d resume.
Arguments OnPost {A} req resume.

(** A stretch of code up to the next suspension. *)
Definition Job (A : Type) : Type := Async (Pending A).

(** Code that never awaits the network. *)
Definition sync {A} (c : Async A) : Job A :=
  bind c (fun a => ret (Finished a)).

Definition throwJ {A} (e : Error) : Job A := throw e.

(** [await addDoc(collection, d)] and [await firstValueFrom(http.post(req))] *)
Definition awaitAddDoc (d : StoredMessage) : Job (option Error) :=
  ret (OnAddDoc d (fun r => ret (Finished r))).

Definition awaitPost (req : OpenAI.OpenAIRequest) : Job OpenAI.HttpResult :=
  ret (OnPost req (fun r => ret (Finished r))).

(** Sequencing: what follows a suspended call follows it when it goes on. *)
Fixpoint thenP {A B} (p : Pending A) (f : A -> Job B) {struct p} : Job B :=
  match p with
  | Finished a => f a
  | OnAddDoc d k =>
      ret (OnAddDoc d (fun r s =>
             match k r s with
             | mkRun (Resolved p') s' t => after t (thenP p' f s')
             | mkRun (Rejected e) s' t => mkRun (Rejected e) s' t
             end))
  | OnPost req k =>
      ret (OnPost req (fun r s =>
             match k r s with
             | mkRun (Resolved p') s' t => after t (thenP p' f s')
             | mkRun (Rejected e) s' t => mkRun (Rejected e) s' t
             end))
  end.

Definition bindJ {A B} (j : Job A) (f : A -> Job B) : Job B :=
  fun s =>
    match j s with
    | mkRun (Resolved p) s' t => after t (thenP p f s')
    | mkRun (Rejected e) s' t => mkRun (Rejected e) s' t
    end.

(** [try { body } catch (e) { handler e }] around code that may suspend. *)
Fixpoint catchP {A} (p : Pending A) (handler : Error -> Job A) {struct p}
  : Pending A :=
  match p with
  | Finished a => Finished a
  | OnAddDoc d k =>
      OnAddDoc d (fun r s =>
        match k r s with
        | mkRun (Resolved p') s' t => mkRun (Resolved (catchP p' handler)) s' t
        | mkRun (Rejected e) s' t => after t (handler e s')
        end)
  | OnPost req k =>
      OnPost req (fun r s =>
        match k r s with
        | mkRun (Resolved p') s' t => mkRun (Resolved (catchP p' handler)) s' t
        | mkRun (Rejected e) s' t => after t (handler e s')
        end)
  end.

Definition try_catchJ {A} (body : Job A) (handler : Error -> Job A) : Job A :=
  fun s =>
    match body s with
    | mkRun (Resolved p) s' t => mkRun (Resolved (catchP p handler)) s' t
    | mkRun (Rejected e) s' t => after t (handler e s')
    end.

(** [try { body } finally { finalizer }], for a finalizer that does not
    await: it runs when the body is over, not when it is suspended. *)
Definition finish {A} (o : Settled A) (finalizer : Async unit) : Job A :=
  fun s =>
    match finalizer s with
    | mkRun (Resolved _) s' t =>
        match o with
        | Resolved a => mkRun (Resolved (Finished a)) s' t
        | Rejected e => mkRun (Rejected e) s' t
        end
    | mkRun (Rejected e) s' t => mkRun (Rejected e) s' t
    end.

Fixpoint finallyP {A} (p : Pending A) (finalizer : Async unit) {struct p}
  : Job A :=
  match p with
  | Finished a => finish (Resolved a) finalizer
  | OnAddDoc d k =>
      ret (OnAddDoc d (fun r s =>
             match k r s with
             | mkRun (Resolved p') s' t => after t (finallyP p' finalizer s')
             | mkRun (Rejected e) s' t => after t (finish (Rejected e) finalizer s')
             end))
  | OnPost req k =>
      ret (OnPost req (fun r s =>
             match k r s with
             | mkRun (Resolved p') s' t => after t (finallyP p' finalizer s')
             | mkRun (Rejected e) s' t => after t (finish (Rejected e) finalizer s')
             end))
  end.

Definition try_finallyJ {A} (body : Job A) (finalizer : Async unit) : Job A :=
  fun s =>
    match body s with
    | mkRun (Resolved p) s' t => after t (finallyP p finalizer s')
    | mkRun (Rejected e) s' t => after t (finish (Rejected e) finalizer s')
    end.

Declare Scope job_scope.
Delimit Scope job_scope with job.
Notation "x <- c ;; k" := (bindJ c (fun x => k))
  (at level 61, c at next level, right associativity) : job_scope.
Notation "c ;; k" := (bindJ c (fun _ => k))
  (at level 61, right associativity) : job_scope.

Local Open Scope job_scope.

(** [FirestoreService.saveMessage(message)] *)
Definition saveMessage (message : ChatMessage) : Job unit :=
  sync (emit (SaveMessage message)) ;;
  try_catchJ
    (if negb (JS.truthy (userId message)) then
       throwJ {| message := "userId is required" |}
     else if negb (JS.truthy (content message)) then
       throwJ {| message := "content is required" |}
     else if negb (Timestamp.inRange (sentAt message)) then
       throwJ (Timestamp.outOfRange (sentAt message))
     else
       r <- awaitAddDoc (FirestoreService.messageToSave message) ;;
       match r with
       | None => sync (update (add_document (FirestoreService.messageToSave message)))
       | Some e => throwJ e
       end)
    (fun e =>
       sync (console_error "Error saving Firestore message:") ;;
       sync (console_error "Error details:") ;;
       throwJ e).

(** [firstValueFrom(openaiService.sendMessage(message, previousHistory))] *)
Definition openaiSendMessage (message : string)
    (previousHistory : list OpenAI.MessageOpenAI) : Job string :=
  sync (emit (OpenAISendMessage message previousHistory)) ;;
  cfg <- sync (read openaiConfig) ;;
  if OpenAI.notConfigured cfg then
    sync (console_error "OpenAI API Key is not configured properly.") ;;
    throwJ OpenAI.notConfiguredError
  else
    sync (emit (HttpPost (OpenAI.buildRequest cfg message previousHistory))) ;;
    r <- awaitPost (OpenAI.buildRequest cfg message previousHistory) ;;
    match OpenAI.settle r with
    | inl contentResponse => sync (ret contentResponse)
    | inr e => sync (console_error "Error communicating with OpenAI:") ;; throwJ e
    end.

(** [ChatService.sendMessage(messageContent)] *)
Definition sendMessage (messageContent : string) : Job unit :=
  currentUser <- sync ChatService.getCurrentUser ;;
  match currentUser with
  | None =>
      sync (console_error "No authenticated user") ;;
      throwJ ChatService.notAuthenticated
  | Some currentUser =>
      if negb (JS.truthy (JS.trim messageContent)) then sync (ret tt)
      else
        now <- sync new_Date ;;
        let userMessage :=
          {| id := None; userId := uid currentUser;
             content := JS.trim messageContent; sentAt := now;
             type := user; status := Some sending |} in
        try_finallyJ
          (try_catchJ
             (userMessages <- sync (read subjectMessages) ;;
              let newMessages := userMessages ++ [userMessage] in
              sync (subjectMessages_next newMessages) ;;
              try_catchJ
                (saveMessage userMessage)
                (fun firestoreError => sync (ret tt)) ;;
              sync (assistantResponding_next true) ;;
              currentMessages <- sync (read subjectMessages) ;;
              let openaiHistory :=
                OpenAIService.convertHistoryToOpenAI (JS.slice (-6) currentMessages) in
              assistantResponse <- openaiSendMessage messageContent openaiHistory ;;
              now <- sync new_Date ;;
              let assistantMessage :=
                {| id := None; userId := uid currentUser;
                   content := assistantResponse; sentAt := now;
                   type := assistant; status := Some sent |} in
              updatedMessages <- sync (read subjectMessages) ;;
              let newMessages2 := updatedMessages ++ [assistantMessage] in
              sync (subjectMessages_next newMessages2) ;;
              try_catchJ
                (saveMessage assistantMessage)
                (fun firestoreError => sync (ret tt)))
             (fun err =>
                sync (console_error "Error processing message:") ;;
                now <- sync new_Date ;;
                let errorMessage :=
                  {| id := None; userId := uid currentUser;
                     content := ChatService.apology; sentAt := now;
                     type := assistant; status := Some error |} in
                try_catchJ
                  (sync (ChatService.firestoreServiceMock_saveMessage errorMessage))
                  (fun saveErrorError =>
                     sync (console_error "Error saving error message:") ;;
                     currentMessages <- sync (read subjectMessages) ;;
                     sync (subjectMessages_next (currentMessages ++ [errorMessage]))) ;;
                throwJ err))
          (assistantResponding_next false)
  end.

(** *** A call that has the thread to itself

    What a suspended call waits for, and the system it sleeps in. *)
Inductive Request :=
| AddDoc (d : StoredMessage)
| Post (req : OpenAI.OpenAIRequest).

Record Alone (A : Type) := mkAlone {
  run : Run A;
  waits : list (Request * System)
}.
Arguments mkAlone {A} run waits.
Arguments run {A} a.
Arguments waits {A} a.

Definition later {A} (t : list Event) (rq : Request) (s : System)
    (a : Alone A) : Alone A :=
  match a with
  | mkAlone r ws => mkAlone (after t r) ((rq, s) :: ws)
  end.

(** The suspension that stands for the settling of [addDoc]: that of the
    user's message or that of the reply. *)
Definition addDocWorld (w : ChatService.SendWorld) (d : StoredMessage)
  : Suspension (option Error) :=
  match stored_type d with
  | user => ChatService.saveUserMessage w
  | assistant => ChatService.saveAssistantMessage w
  end.

(** The call goes on as soon as what it awaits has settled, and nothing but
    the passing of time and the snapshots of [w] happens meanwhile. *)
Fixpoint aloneP {A} (w : ChatService.SendWorld) (p : Pending A) (s : System)
    {struct p} : Alone A :=
  match p with
  | Finished a => mkAlone (mkRun (Resolved a) s []) []
  | OnAddDoc d k =>
      match await (addDocWorld w d) s with
      | mkRun (Resolved r) s1 t1 =>
          match k r s1 with
          | mkRun (Resolved p') s2 t2 =>
              later (t1 ++ t2) (AddDoc d) s (aloneP w p' s2)
          | mkRun (Rejected e) s2 t2 =>
              mkAlone (mkRun (Rejected e) s2 (t1 ++ t2)) [(AddDoc d, s)]
          end
      | mkRun (Rejected e) s1 t1 =>
          mkAlone (mkRun (Rejected e) s1 t1) [(AddDoc d, s)]
      end
  | OnPost req k =>
      match await (ChatService.generation w) s with
      | mkRun (Resolved r) s1 t1 =>
          match k r s1 with
          | mkRun (Resolved p') s2 t2 =>
              later (t1 ++ t2) (Post req) s (aloneP w p' s2)
          | mkRun (Rejected e) s2 t2 =>
              mkAlone (mkRun (Rejected e) s2 (t1 ++ t2)) [(Post req, s)]
          end
      | mkRun (Rejected e) s1 t1 =>
          mkAlone (mkRun (Rejected e) s1 t1) [(Post req, s)]
      end
  end.

Definition alone {A} (w : ChatService.SendWorld) (j : Job A) (s : System)
  : Alone A :=
  match j s with
  | mkRun (Resolved p) s' t =>
      match aloneP w p s' with
      | mkAlone r ws => mkAlone (after t r) ws
      end
  | mkRun (Rejected e) s' t => mkAlone (mkRun (Rejected e) s' t) []
  end.

(** *** Calls that share the thread

    A turn of the event loop: a new call of [sendMessage], or the settling
    of what the call of the given number awaits. *)
Inductive Arrival :=
| AddDocSettled (r : option Error)
| PostSettled (r : OpenAI.HttpResult).

Inductive Turn :=
| Call (text : string)
| Settle (call : nat) (a : Arrival).

Definition resume {A} (p : Pending A) (a : Arrival) : Job A :=
  match p, a with
  | OnAddDoc _ k, AddDocSettled r => k r
  | OnPost _ k, PostSettled r => k r
  | _, _ => ret p
  end.

Record Loop := mkLoop {
  system : System;
  log : list Event;
  calls : list (Settled (Pending unit))
}.

Fixpoint replace {A} (n : nat) (x : A) (l : list A) : list A :=
  match l, n with
  | [], _ => []
  | _ :: rest, O => x :: rest
  | y :: rest, S n' => y :: replace n' x rest
  end.

Definition turn (l : Loop) (t : Turn) : Loop :=
  match t with
  | Call text =>
      match sendMessage text (system l) with
      | mkRun o s' t' => mkLoop s' (log l ++ t') (calls l ++ [o])
      end
  | Settle n a =>
      match nth_error (calls l) n with
      | Some (Resolved p) =>
          match resume p a (system l) with
          | mkRun o s' t' => mkLoop s' (log l ++ t') (replace n o (calls l))
          end
      | _ => l
      end
  end.

Definition turns (ts : list Turn) (s : System) : Loop :=
  fold_left turn ts (mkLoop s [] []).

(** Is the call still under way? *)
Definition underWay (o : option (Settled (Pending unit))) : bool :=
  match o with
  | Some (Resolved (OnAddDoc _ _)) | Some (Resolved (OnPost _ _)) => true
  | _ => false
  end.

End Tasks.

(** ** What a subscriber observes of a run *)

Module Observations.
Import Models Runtime.

(** The values emitted by [assistantResponding$], in order. *)
Fixpoint respondingEmissions (t : list Event) : list bool :=
  match t with
  | [] => []
  | RespondingNext b :: t' => b :: respondingEmissions t'
  | _ :: t' => respondingEmissions t'
  end.

(** The calls of [openaiService.sendMessage] in a trace, each with the value
    that [subjectMessages] held when it was made; [current] is that value
    at the start of the trace. *)
Fixpoint generationCalls (current : list ChatMessage) (t : list Event)
  : list (list ChatMessage * string * list OpenAI.MessageOpenAI) :=
  match t with
  | [] => []
  | MessagesNext l :: t' => generationCalls l t'
  | OpenAISendMessage text history :: t' =>
      (current, text, history) :: generationCalls current t'
  | _ :: t' => generationCalls current t'
  end.

(** The calls that reach durable storage. *)
Definition isStorageCall (e : Event) : bool :=
  match e with
  | SaveMessage _ => true
  | _ => false
  end.

(** The message that [sendMessage] builds from the text of the user [u]
    when called in the system [s]. *)
Definition userMessageOf (s : System) (u : User) (text : string) : ChatMessage :=
  {| id := None; userId := uid u; content := JS.trim text;
     sentAt := clock s; type := user; status := Some sending |}.

(** The busy flag that a call of [sendMessage] made in the system [s] may
    sleep on: the flag as it was while the message of the user is being
    stored, and true while the answer is awaited or the reply stored. *)
Definition busyWhile (s : System) (rq : Tasks.Request) : bool :=
  match rq with
  | Tasks.AddDoc d =>
      match stored_type d with
      | user => assistantResponding s
      | assistant => true
      end
  | Tasks.Post _ => true
  end.

Definition isReply (m : ChatMessage) : bool :=
  match type m with assistant => true | user => false end.

(** Does the list begin with two replies in a row? *)
Definition startsWithTwoReplies (l : list ChatMessage) : bool :=
  match l with
  | m1 :: m2 :: _ => isReply m1 && isReply m2
  | _ => false
  end.

End Observations.

(** ** Sample systems and worlds *)

Module Samples.
Import Models Runtime.

Definition alice : User := {| uid := "alice"; email := "alice@example.com" |}.

Definition config : OpenAI.Config :=
  {| OpenAI.apiUrl := "https://api.openai.com/v1/chat/completions";
     OpenAI.apiKey := "sk-sample";
     OpenAI.model := "gpt-4o-mini" |}.

Definition question (text : string) (at_ : Date) : ChatMessage :=
  {| id := None; userId := "alice"; content := text; sentAt := at_;
     type := user; status := Some sending |}.

Definition reply (text : string) (at_ : Date) : ChatMessage :=
  {| id := None; userId := "alice"; content := text; sentAt := at_;
     type := assistant; status := Some sent |}.

(** A signed-in user in front of an empty chat. *)
Definition signedIn : System :=
  {| currentUser := Some alice; openaiConfig := config;
     messagesCollection := []; clock := 1000%Z; subjectMessages := [];
     loadingHistory := false; assistantResponding := false |}.

Definition signedOut : System :=
  {| currentUser := None; openaiConfig := config;
     messagesCollection := []; clock := 1000%Z; subjectMessages := [];
     loadingHistory := false; assistantResponding := false |}.

(** Three complete turns on screen. *)
Definition threeTurns : list ChatMessage :=
  [ question "q1" 10%Z; reply "a1" 20%Z; question "q2" 30%Z;
    reply "a2" 40%Z; question "q3" 50%Z; reply "a3" 60%Z ].

Definition afterThreeTurns : System :=
  {| currentUser := Some alice; openaiConfig := config;
     messagesCollection := []; clock := 1000%Z; subjectMessages := threeTurns;
     loadingHistory := false; assistantResponding := false |}.

(** A suspension of five milliseconds during which no snapshot arrives. *)
Definition quiet {A : Type} (a : A) : Suspension A :=
  {| elapsed := 5%Z; snapshot := None; result := a |}.

Definition answer (text : string) : OpenAI.HttpResult :=
  OpenAI.HttpResponse
    [ {| OpenAI.choice_message :=
           Some {| OpenAI.msg_role := "assistant"; OpenAI.msg_content := text |};
         OpenAI.finish_reason := "stop" |} ].

(** Every save succeeds and the model answers. *)
Definition answered : ChatService.SendWorld :=
  {| ChatService.saveUserMessage := quiet None;
     ChatService.generation := quiet (answer "Hola");
     ChatService.saveAssistantMessage := quiet None |}.

(** Every save succeeds and the API answers with status 429. *)
Definition rateLimited : ChatService.SendWorld :=
  {| ChatService.saveUserMessage := quiet None;
     ChatService.generation := quiet (OpenAI.HttpFailure 429%Z None);
     ChatService.saveAssistantMessage := quiet None |}.

Definition nineQuestions : list ChatMessage := repeat (question "q" 10%Z) 9.
Definition nineReplies : list ChatMessage := repeat (reply "a" 10%Z) 9.
Definition oneTurn : list ChatMessage := [ question "q1" 10%Z; reply "a1" 20%Z ].
Definition fiveTurns : list ChatMessage :=
  threeTurns ++ [ question "q4" 70%Z; reply "a4" 80%Z;
                  question "q5" 90%Z; reply "a5" 100%Z ].

End Samples.

(** ** services/gemini.ts: the stages of [sendMessage] *)

Module GeminiSend.

Record Config := { apiUrl : string; apiKey : string }.

Record SafetySetting := { category : string; threshold : string }.

(** The request body; [temperature] is the constant 0.7 and is left out. *)
Record GeminiRequest := {
  contents : list Gemini.ContentGemini;
  maxOutputTokens : Z;
  safetySettings : list SafetySetting
}.

(** A candidate of the response; its [content] and the [parts] of it may be
    missing. *)
Record Candidate := {
  candidate_parts : option (list Gemini.PartGemini);
  finishReason : string
}.

Inductive HttpResult :=
| HttpResponse (candidates : list Candidate)
| HttpFailure (httpStatus : Z) (apiMessage : option string).

Definition notConfigured (cfg : Config) : bool :=
  negb (JS.truthy (apiKey cfg)) || String.eqb (apiKey cfg) "TU_API_KEY_DE_GEMINI".

Definition notConfiguredError : Models.Error :=
  {| Models.message := "Gemini API Key is not configured. Please set your key in environment.ts" |}.

Definition systemMessage : Gemini.ContentGemini :=
  {| Gemini.role := Gemini.user;
     Gemini.parts :=
       [ {| Gemini.text :=
              ("You are a virtual assistant who is helpful and friendly. Always respond in Spanish clearly and concisely."
               ++ JS.LF ++
               "               You specialize in helping with general questions, programming, and technology."
               ++ JS.LF ++
               "               Maintain a professional but approachable tone.")%string |} ] |}.

Definition systemResponse : Gemini.ContentGemini :=
  {| Gemini.role := Gemini.model;
     Gemini.parts :=
       [ {| Gemini.text := "Understood. I am your virtual assistant specialized in technology and programming. I will help you clearly and professionally in Spanish. How can I assist you?" |} ] |}.

Definition securityConfig : list SafetySetting :=
  [ {| category := "HARM_CATEGORY_HARASSMENT"; threshold := "BLOCK_MEDIUM_AND_ABOVE" |};
    {| category := "HARM_CATEGORY_HATE_SPEECH"; threshold := "BLOCK_MEDIUM_AND_ABOVE" |};
    {| category := "HARM_CATEGORY_SEXUALLY_EXPLICIT"; threshold := "BLOCK_MEDIUM_AND_ABOVE" |};
    {| category := "HARM_CATEGORY_DANGEROUS_CONTENT"; threshold := "BLOCK_MEDIUM_AND_ABOVE" |} ].

Definition buildRequest (message : string)
    (previousHistory : list Gemini.ContentGemini) : GeminiRequest :=
  {| contents :=
       systemMessage :: systemResponse :: previousHistory
       ++ [ {| Gemini.role := Gemini.user;
               Gemini.parts := [ {| Gemini.text := message |} ] |} ];
     maxOutputTokens := 800;
     safetySettings := securityConfig |}.

Definition fullUrl (cfg : Config) : string :=
  (apiUrl cfg ++ "?key=" ++ apiKey cfg)%string.

(** The [map] operator of the pipe. *)
Definition extractContent (candidates : list Candidate) : string + Models.Error :=
  match candidates with
  | candidate :: _ =>
      match candidate_parts candidate with
      | Some (part :: _) =>
          inl (if String.eqb (finishReason candidate) "MAX_TOKENS"
               then (Gemini.text part ++ JS.LF ++ JS.LF ++
                     "[Note: Response truncated due to token limit. You can ask me to continue.]")%string
               else Gemini.text part)
      | _ => inr {| Models.message := "Gemini response does not contain valid content parts" |}
      end
  | [] => inr {| Models.message := "Gemini response does not have the expected format" |}
  end.

(** The [catchError] operator of the pipe. *)
Definition describeError (httpStatus : option Z) (apiMessage : option string)
  : Models.Error :=
  let statusIs n := match httpStatus with Some k => (k =? n)%Z | None => false end in
  {| Models.message :=
       if statusIs 400%Z then "Invalid request to Gemini. Check the configuration."
       else if statusIs 403%Z then "Invalid or unauthorized Gemini API key."
       else if statusIs 429%Z then "You have exceeded the request limit. Please try again later."
       else if statusIs 500%Z then "Gemini server error. Please try again later."
       else match apiMessage with
            | Some m => if JS.truthy m then m else "Error connecting to Gemini"
            | None => "Error connecting to Gemini"
            end |}.

(** The value or error with which the observable of [sendMessage] settles
    once the HTTP call has settled with [r]. *)
Definition settle (r : HttpResult) : string + Models.Error :=
  match r with
  | HttpResponse candidates =>
      match extractContent candidates with
      | inl text => inl text
      | inr _ => inr (describeError None None)
      end
  | HttpFailure st m => inr (describeError (Some st) m)
  end.

(** [sendMessage(message, previousHistory)]: the request it posts, if any,
    and what its observable delivers when the HTTP call settles with [r]. *)
Definition sendMessage (cfg : Config) (message : string)
    (previousHistory : list Gemini.ContentGemini) (r : HttpResult)
  : option (string * GeminiRequest) * (string + Models.Error) :=
  if notConfigured cfg then (None, inr notConfiguredError)
  else (Some (fullUrl cfg, buildRequest message previousHistory), settle r).

Definition verifyConfiguration (cfg : Config) : bool :=
  JS.truthy (apiKey cfg) && JS.truthy (apiUrl cfg).

End GeminiSend.

(** ** services/firestore.ts: the snapshot listener of [getUserMessages] *)

Module FirestoreQuery.
Import Models Runtime.

Record QueryDocument := { doc_id : string; doc_data : StoredMessage }.

(** [doc => ({ id: doc.id, userId: data['userId'], ..., sentAt:
    data['sentAt'].toDate() })], for documents of the shape that
    [saveMessage] writes. *)
Definition toChatMessage (doc : QueryDocument) : ChatMessage :=
  {| id := Some (doc_id doc);
     userId := stored_userId (doc_data doc);
     content := stored_content (doc_data doc);
     sentAt := stored_sentAt (doc_data doc);
     type := stored_type (doc_data doc);
     status := Some (stored_status (doc_data doc)) |}.

(** [messages.sort((a, b) => a.sentAt.getTime() - b.sentAt.getTime())]:
    [Array.prototype.sort] is a stable sort, here in ascending order of
    [sentAt]; the result of a stable sort does not depend on its algorithm,
    and insertion is used. *)
Fixpoint insertBySentAt (m : ChatMessage) (l : list ChatMessage) : list ChatMessage :=
  match l with
  | [] => [m]
  | x :: rest =>
      if (sentAt m <=? sentAt x)%Z then m :: l else x :: insertBySentAt m rest
  end.

Fixpoint sortBySentAt (l : list ChatMessage) : list ChatMessage :=
  match l with
  | [] => []
  | m :: rest => insertBySentAt m (sortBySentAt rest)
  end.

(** What the listener hands to [observer.next] for a snapshot. *)
Definition snapshotMessages (docs : list QueryDocument) : list ChatMessage :=
  sortBySentAt (map toChatMessage docs).

(** What the live query delivers to the subscriber of [initializeChat]. *)
Inductive Delivery :=
| Snapshot (docs : list QueryDocument)
| QueryError.

Local Open Scope async_scope.

Definition deliver (d : Delivery) : Async unit :=
  match d with
  | Snapshot docs => historyNext (snapshotMessages docs)
  | QueryError =>
      console_error "Error listening messages:" ;; ChatService.historyError
  end.

(** What one subscription delivers: snapshots, until the query fails;
    [observer.error] ends the subscription, and nothing that the query
    would deliver afterwards reaches the subscriber. *)
Fixpoint deliverAll (ds : list Delivery) : Async unit :=
  match ds with
  | [] => ret tt
  | Snapshot docs :: rest => deliver (Snapshot docs) ;; deliverAll rest
  | QueryError :: _ => deliver QueryError
  end.

End FirestoreQuery.

(** ** services/auth.ts *)

Module AuthService.
Import Models Runtime.
Local Open Scope async_scope.

Definition set_currentUser (u : option User) (s : System) : System :=
  {| currentUser := u; openaiConfig := openaiConfig s;
     messagesCollection := messagesCollection s; clock := clock s;
     subjectMessages := subjectMessages s; loadingHistory := loadingHistory s;
     assistantResponding := assistantResponding s |}.

Definition getCurrentUser : Async (option User) := read currentUser.

Definition getUserUid : Async (option string) :=
  u <- getCurrentUser ;;
  ret (match u with Some u => Some (uid u) | None => None end).

(** [logout()]; [w] is the suspension on [signOut], after which nobody is
    signed in when it resolves. *)
Definition logout (w : Suspension (option Error)) : Async unit :=
  try_catch
    (r <- await w ;;
     match r with
     | None => update (set_currentUser None)
     | Some e => throw e
     end)
    (fun e => console_error "Error during logout:" ;; throw e).

End AuthService.

(** ** components/chat/chat.ts *)

Module ChatComponent.
Import Models Runtime.

(** The fields of the component, with the address that the router shows. *)
Record Chat := {
  user : option User;
  messages : list ChatMessage;
  messageText : string;
  sendingMessage : bool;
  assistantTyping : bool;
  loadingHistory : bool;
  messageError : string;
  subscribed : bool;          (* subscriptions is not empty *)
  mustDoScroll : bool;
  routerUrl : string
}.

Definition set_user (u : option User) (c : Chat) : Chat :=
  {| user := u; messages := messages c; messageText := messageText c;
     sendingMessage := sendingMessage c; assistantTyping := assistantTyping c;
     loadingHistory := loadingHistory c; messageError := messageError c;
     subscribed := subscribed c; mustDoScroll := mustDoScroll c;
     routerUrl := routerUrl c |}.

Definition set_messages (l : list ChatMessage) (c : Chat) : Chat :=
  {| user := user c; messages := l; messageText := messageText c;
     sendingMessage := sendingMessage c; assistantTyping := assistantTyping c;
     loadingHistory := loadingHistory c; messageError := messageError c;
     subscribed := subscribed c; mustDoScroll := mustDoScroll c;
     routerUrl := routerUrl c |}.

Definition set_messageText (t : string) (c : Chat) : Chat :=
  {| user := user c; messages := messages c; messageText := t;
     sendingMessage := sendingMessage c; assistantTyping := assistantTyping c;
     loadingHistory := loadingHistory c; messageError := messageError c;
     subscribed := subscribed c; mustDoScroll := mustDoScroll c;
     routerUrl := routerUrl c |}.

Definition set_sendingMessage (b : bool) (c : Chat) : Chat :=
  {| user := user c; messages := messages c; messageText := messageText c;
     sendingMessage := b; assistantTyping := assistantTyping c;
     loadingHistory := loadingHistory c; messageError := messageError c;
     subscribed := subscribed c; mustDoScroll := mustDoScroll c;
     routerUrl := routerUrl c |}.

Definition set_assistantTyping (b : bool) (c : Chat) : Chat :=
  {| user := user c; messages := messages c; messageText := messageText c;
     sendingMessage := sendingMessage c; assistantTyping := b;
     loadingHistory := loadingHistory c; messageError := messageError c;
     subscribed := subscribed c; mustDoScroll := mustDoScroll c;
     routerUrl := routerUrl c |}.

Definition set_loadingHistory (b : bool) (c : Chat) : Chat :=
  {| user := user c; messages := messages c; messageText := messageText c;
     sendingMessage := sendingMessage c; assistantTyping := assistantTyping c;
     loadingHistory := b; messageError := messageError c;
     subscribed := subscribed c; mustDoScroll := mustDoScroll c;
     routerUrl := routerUrl c |}.

Definition set_messageError (t : string) (c : Chat) : Chat :=
  {| user := user c; messages := messages c; messageText := messageText c;
     sendingMessage := sendingMessage c; assistantTyping := assistantTyping c;
     loadingHistory := loadingHistory c; messageError := t;
     subscribed := subscribed c; mustDoScroll := mustDoScroll c;
     routerUrl := routerUrl c |}.

Definition set_subscribed (b : bool) (c : Chat) : Chat :=
  {| user := user c; messages := messages c; messageText := messageText c;
     sendingMessage := sendingMessage c; assistantTyping := assistantTyping c;
     loadingHistory := loadingHistory c; messageError := messageError c;
     subscribed := b; mustDoScroll := mustDoScroll c;
     routerUrl := routerUrl c |}.

Definition set_mustDoScroll (b : bool) (c : Chat) : Chat :=
  {| user := user c; messages := messages c; messageText := messageText c;
     sendingMessage := sendingMessage c; assistantTyping := assistantTyping c;
     loadingHistory := loadingHistory c; messageError := messageError c;
     subscribed := subscribed c; mustDoScroll := b;
     routerUrl := routerUrl c |}.

Definition set_routerUrl (t : string) (c : Chat) : Chat :=
  {| user := user c; messages := messages c; messageText := messageText c;
     sendingMessage := sendingMessage c; assistantTyping := assistantTyping c;
     loadingHistory := loadingHistory c; messageError := messageError c;
     subscribed := subscribed c; mustDoScroll := mustDoScroll c;
     routerUrl := t |}.

(** The two callbacks of [configureSubscriptions]. *)
Definition onMessages (l : list ChatMessage) (c : Chat) : Chat :=
  set_mustDoScroll true (set_messages l c).

Definition onResponding (responding : bool) (c : Chat) : Chat :=
  let c' := set_assistantTyping responding c in
  if responding then set_mustDoScroll true c' else c'.

(** The effect on the component of what the service emits: nothing before
    [configureSubscriptions], the callbacks afterwards. *)
Definition notify (e : Event) (c : Chat) : Chat :=
  if subscribed c then
    match e with
    | MessagesNext l => onMessages l c
    | RespondingNext b => onResponding b c
    | _ => c
    end
  else c.

Definition notifyAll (t : list Event) (c : Chat) : Chat :=
  fold_left (fun c e => notify e c) t c.

(** [configureSubscriptions()]: each subject replays its current value to
    its new subscriber. *)
Definition configureSubscriptions (s : System) (c : Chat) : Chat :=
  onResponding (assistantResponding s)
    (onMessages (subjectMessages s) (set_subscribed true c)).

(** How [router.navigate] settles. *)
Inductive Navigation :=
| Navigated
| Cancelled
| NavigationFailed (e : Error).

Definition navigate (target : string) (n : Navigation) (c : Chat) : Chat :=
  match n with
  | Navigated => set_routerUrl target c
  | _ => c
  end.

(** The component after a method has settled, with the run of the services
    underneath. *)
Record Step := mkStep { component : Chat; services : Run unit }.

(** [sendMessage()]; [focusInput] touches the page only and is left out. *)
Definition sendMessage (c : Chat) (w : ChatService.SendWorld) (s : System) : Step :=
  if negb (JS.truthy (JS.trim (messageText c))) then
    mkStep c (mkRun (Resolved tt) s [])
  else
    let c1 := set_sendingMessage true (set_messageError EmptyString c) in
    let text := JS.trim (messageText c1) in
    let c2 := set_messageText EmptyString c1 in
    match ChatService.sendMessage text w s with
    | mkRun (Resolved _) s' t =>
        mkStep (set_sendingMessage false (notifyAll t c2))
               (mkRun (Resolved tt) s' t)
    | mkRun (Rejected e) s' t =>
        let c3 := notifyAll t c2 in
        let c4 := set_messageError
                    (if JS.truthy (message e) then message e
                     else "Error sending message") c3 in
        let c5 := set_messageText text c4 in
        mkStep (set_sendingMessage false c5)
               (mkRun (Resolved tt) s' (t ++ [ConsoleError "Error sending message:"]))
    end.

(** [handleKeyPress(event)], for the key and the state of Shift. *)
Definition handleKeyPress (key : string) (shiftKey : bool) (c : Chat)
    (w : ChatService.SendWorld) (s : System) : Step :=
  if String.eqb key "Enter" && negb shiftKey then sendMessage c w s
  else mkStep c (mkRun (Resolved tt) s []).

(** [logout()]: the suspension on [signOut] and how the navigation to
    [/auth] settles. *)
Definition logout (c : Chat) (w : Suspension (option Error)) (n : Navigation)
    (s : System) : Step :=
  match ChatService.clearChat s with
  | mkRun _ s1 t1 =>
      let c1 := notifyAll t1 c in
      match AuthService.logout w s1 with
      | mkRun (Resolved _) s2 t2 =>
          let c2 := notifyAll t2 c1 in
          match n with
          | NavigationFailed e =>
              mkStep (set_messageError "Error logging out" c2)
                     (mkRun (Resolved tt) s2
                        (t1 ++ t2 ++ [ConsoleError "Error logging out:"]))
          | _ =>
              mkStep (navigate "/auth" n c2) (mkRun (Resolved tt) s2 (t1 ++ t2))
          end
      | mkRun (Rejected e) s2 t2 =>
          mkStep (set_messageError "Error logging out" (notifyAll t2 c1))
                 (mkRun (Resolved tt) s2
                    (t1 ++ t2 ++ [ConsoleError "Error logging out:"]))
      end
  end.

(** [ngOnInit()], with [verificarAutenticacion] and [startChat] in line;
    [n] is how the navigation to [/auth] settles when nobody is signed in. *)
Definition ngOnInit (c : Chat) (n : Navigation) (s : System) : Step :=
  let c1 := set_user (currentUser s) c in
  match user c1 with
  | None =>
      mkStep (set_messageError "Error loading chat. Please try reloading the page."
                (navigate "/auth" n c1))
             (mkRun (Resolved tt) s [ConsoleError "Error upon initializing chat:"])
  | Some u =>
      let c2 := set_loadingHistory true c1 in
      match ChatService.initializeChat (uid u) s with
      | mkRun (Resolved _) s' t =>
          let c3 := set_loadingHistory false (notifyAll t c2) in
          mkStep (configureSubscriptions s' c3) (mkRun (Resolved tt) s' t)
      | mkRun (Rejected e) s' t =>
          let c3 := set_loadingHistory false (notifyAll t c2) in
          mkStep (set_messageError "Error loading chat. Please try reloading the page." c3)
                 (mkRun (Resolved tt) s'
                    (t ++ [ConsoleError "Error upon initializing chat in component:";
                           ConsoleError "Error upon initializing chat:"]))
      end
  end.

End ChatComponent.

(** ** Vocabulary of the further properties *)

Module Expectations.
Import Models Runtime.

Definition openaiFixedMessages : list string :=
  [ "Invalid request to OpenAI. Check the configuration.";
    "Invalid or unauthorized OpenAI API key.";
    "You have exceeded the request limit. Please try again later.";
    "OpenAI server error. Please try again later.";
    "Error connecting to OpenAI" ].

Definition geminiFixedMessages : list string :=
  [ "Invalid request to Gemini. Check the configuration.";
    "Invalid or unauthorized Gemini API key.";
    "You have exceeded the request limit. Please try again later.";
    "Gemini server error. Please try again later.";
    "Error connecting to Gemini" ].

(** Ascending order of [sentAt]. *)
Definition earlier (a b : ChatMessage) : Prop := (sentAt a <= sentAt b)%Z.
Definition chronological (l : list ChatMessage) : Prop := Sorted earlier l.

(** The status under which a message is stored: [status || 'sent']. *)
Definition storedStatus (m : ChatMessage) : MessageStatus :=
  match status m with Some st => st | None => sent end.

(** The requests posted to OpenAI in a trace, in order. *)
Fixpoint postedRequests (t : list Event) : list OpenAI.OpenAIRequest :=
  match t with
  | [] => []
  | HttpPost req :: t' => req :: postedRequests t'
  | _ :: t' => postedRequests t'
  end.



(** No snapshot arrives during the suspensions of [w]. *)
Definition undisturbed (w : ChatService.SendWorld) : Prop :=
  snapshot (ChatService.saveUserMessage w) = None /\
  snapshot (ChatService.generation w) = None /\
  snapshot (ChatService.saveAssistantMessage w) = None.

(** Time does not run backwards during the suspensions of [w]. *)
Definition forward (w : ChatService.SendWorld) : Prop :=
  (0 <= elapsed (ChatService.saveUserMessage w))%Z /\
  (0 <= elapsed (ChatService.generation w))%Z /\
  (0 <= elapsed (ChatService.saveAssistantMessage w))%Z.

(** The list on screen is in ascending order of [sentAt] and holds no
    message of the future. *)
Definition timelyAt (l : list ChatMessage) (now : Date) : Prop :=
  chronological l /\ Forall (fun m => (sentAt m <= now)%Z) l.

Definition timely (s : System) : Prop :=
  timelyAt (subjectMessages s) (clock s).

(** What [sendMessage] may add to the stored collection for the user [u] and
    the text [text]. *)
Definition storedBySend (u : User) (text : string) (d : StoredMessage) : Prop :=
  stored_userId d = uid u /\
  stored_status d <> error /\
  (stored_type d = user ->
   stored_content d = JS.trim text /\ stored_status d = sending) /\
  (stored_type d = assistant -> stored_status d = sent).


(** The component shows what the subjects of the service hold. *)
Definition inStep (c : ChatComponent.Chat) (s : System) : Prop :=
  ChatComponent.subscribed c = true /\
  ChatComponent.messages c = subjectMessages s /\
  ChatComponent.assistantTyping c = assistantResponding s.

End Expectations.

(** ** More samples *)

Module MoreSamples.
Import Models Runtime.

Definition storedQuestion (text : string) (at_ : Date) : StoredMessage :=
  FirestoreService.messageToSave (Samples.question text at_).

Definition twoDocuments : list FirestoreQuery.QueryDocument :=
  [ {| FirestoreQuery.doc_id := "d1";
       FirestoreQuery.doc_data := storedQuestion "q1" 10%Z |};
    {| FirestoreQuery.doc_id := "d2";
       FirestoreQuery.doc_data := storedQuestion "q2" 20%Z |} ].

(** A configuration that still carries the placeholder of the API key. *)
Definition placeholderConfig : OpenAI.Config :=
  {| OpenAI.apiUrl := "https://api.openai.com/v1/chat/completions";
     OpenAI.apiKey := "TU_API_KEY_DE_OPENAI";
     OpenAI.model := "gpt-4o-mini" |}.

Definition unconfigured : System :=
  {| currentUser := Some Samples.alice; openaiConfig := placeholderConfig;
     messagesCollection := []; clock := 1000%Z; subjectMessages := [];
     loadingHistory := false; assistantResponding := false |}.

(** The component of a signed-in user who has typed a message. *)
Definition typing (text : string) : ChatComponent.Chat :=
  {| ChatComponent.user := Some Samples.alice;
     ChatComponent.messages := [];
     ChatComponent.messageText := text;
     ChatComponent.sendingMessage := false;
     ChatComponent.assistantTyping := false;
     ChatComponent.loadingHistory := false;
     ChatComponent.messageError := EmptyString;
     ChatComponent.subscribed := true;
     ChatComponent.mustDoScroll := false;
     ChatComponent.routerUrl := "/chat" |}.

End MoreSamples.

(** * Properties *)

Import Models Runtime Observations Expectations.

(** ** Array slicing *)

Section Slicing.
Context {A B : Type}.

Lemma slice_negative (n : nat) (l : list A) :
  JS.slice (- Z.of_nat (S n)) l = skipn (length l - S n) l.
Proof.
  unfold JS.slice.
  replace (- Z.of_nat (S n) <? 0)%Z with true by (symmetry; apply Z.ltb_lt; lia).
  f_equal. lia.
Qed.

Lemma slice_last6 (l : list A) : JS.slice (-6) l = skipn (length l - 6) l.
Proof. exact (slice_negative 5 l). Qed.

Lemma slice_1 (l : list A) : JS.slice 1 l = tl l.
Proof.
  unfold JS.slice. cbn [Z.ltb Z.compare].
  destruct l as [|a l]; [reflexivity|].
  replace (Z.to_nat (Z.min 1 (Z.of_nat (length (a :: l))))) with 1.
  - reflexivity.
  - cbn [length]. lia.
Qed.

Lemma slice_last6_length (l : list A) : length (JS.slice (-6) l) = min 6 (length l).
Proof. rewrite slice_last6, length_skipn. lia. Qed.

Lemma slice_map (f : A -> B) (k : Z) (l : list A) :
  JS.slice k (map f l) = map f (JS.slice k l).
Proof. unfold JS.slice. rewrite length_map. apply skipn_map. Qed.

(** A list of six or more elements has a last-six slice of exactly six. *)
Lemma slice_last6_shape (l : list A) :
  6 <= length l ->
  exists a b c d e f, JS.slice (-6) l = [a; b; c; d; e; f].
Proof.
  intros H.
  pose proof (slice_last6_length l) as L.
  rewrite Nat.min_l in L by exact H.
  destruct (JS.slice (-6) l) as [|a [|b [|c [|d [|e [|f [|g r]]]]]]];
    cbn [length] in L; try discriminate.
  now exists a, b, c, d, e, f.
Qed.

End Slicing.

(** ** History conversion *)

Section Windowing.

(** The conversions never enter their trimming branch on a list of at most
    eight messages. *)
Lemma convertHistoryToOpenAI_short (l : list ChatMessage) :
  length l <= 8 ->
  OpenAIService.convertHistoryToOpenAI l = map OpenAI.toOpenAI l.
Proof.
  intros H. unfold OpenAIService.convertHistoryToOpenAI, OpenAI.convertHistoryToOpenAI.
  rewrite length_map.
  destruct (Nat.ltb_spec 8 (length l)); [lia | reflexivity].
Qed.

Lemma convertHistoryToGemini_short (l : list ChatMessage) :
  length l <= 8 ->
  GeminiService.convertHistoryToGemini l = map Gemini.toGemini l.
Proof.
  intros H. unfold GeminiService.convertHistoryToGemini, Gemini.convertHistoryToGemini.
  rewrite length_map.
  destruct (Nat.ltb_spec 8 (length l)); [lia | reflexivity].
Qed.

(** On a longer list they keep the last six messages and drop the first of
    these when it is a reply. *)
Lemma convertHistoryToOpenAI_long (l : list ChatMessage) :
  8 < length l ->
  exists m rest,
    JS.slice (-6) l = m :: rest /\
    OpenAIService.convertHistoryToOpenAI l =
      match type m with
      | assistant => map OpenAI.toOpenAI rest
      | user => map OpenAI.toOpenAI (m :: rest)
      end.
Proof.
  intros H.
  destruct (slice_last6_shape l) as (a & b & c & d & e & f & E); [lia|].
  exists a, [b; c; d; e; f]. split; [exact E|].
  unfold OpenAIService.convertHistoryToOpenAI, OpenAI.convertHistoryToOpenAI.
  rewrite length_map.
  destruct (Nat.ltb_spec 8 (length l)); [|lia].
  rewrite slice_map, E.
  cbn [map length Nat.ltb Nat.leb nth_error andb OpenAI.role OpenAI.toOpenAI].
  destruct (type a); cbn [OpenAI.isAssistant]; [reflexivity|].
  now rewrite slice_1.
Qed.

Lemma convertHistoryToGemini_long (l : list ChatMessage) :
  8 < length l ->
  exists m rest,
    JS.slice (-6) l = m :: rest /\
    GeminiService.convertHistoryToGemini l =
      match type m with
      | assistant => map Gemini.toGemini rest
      | user => map Gemini.toGemini (m :: rest)
      end.
Proof.
  intros H.
  destruct (slice_last6_shape l) as (a & b & c & d & e & f & E); [lia|].
  exists a, [b; c; d; e; f]. split; [exact E|].
  unfold GeminiService.convertHistoryToGemini, Gemini.convertHistoryToGemini.
  rewrite length_map.
  destruct (Nat.ltb_spec 8 (length l)); [|lia].
  rewrite slice_map, E.
  cbn [map length Nat.ltb Nat.leb nth_error andb Gemini.role Gemini.toGemini].
  destruct (type a); cbn [Gemini.isModel]; [reflexivity|].
  now rewrite slice_1.
Qed.

End Windowing.

(** C2, as stated, fails: a log of nine messages is within twice the window
    of six, and both conversions cut it down to its last six messages. *)
Lemma convertHistory_nine_messages_trimmed :
  length Samples.nineQuestions <= 2 * 6 /\
  length (OpenAIService.convertHistoryToOpenAI Samples.nineQuestions) = 6 /\
  OpenAIService.convertHistoryToOpenAI Samples.nineQuestions
    <> map OpenAI.toOpenAI Samples.nineQuestions /\
  length (GeminiService.convertHistoryToGemini Samples.nineQuestions) = 6 /\
  GeminiService.convertHistoryToGemini Samples.nineQuestions
    <> map Gemini.toGemini Samples.nineQuestions.
Proof.
  repeat split; try (cbv; lia); try reflexivity;
    intros H; apply (f_equal (@length _)) in H; vm_compute in H; discriminate.
Qed.

(** C2, amended: for every log of at most eight messages,
    [convertHistoryToOpenAI] and [convertHistoryToGemini] return the whole
    log with its roles mapped: the result has the length of the log, and its
    i-th entry carries the content of the i-th message under the role
    user for a user message and assistant (resp. model) for an assistant
    message. *)
Theorem convertHistory_short_log_unchanged (l : list ChatMessage) :
  length l <= 8 ->
  (OpenAIService.convertHistoryToOpenAI l = map OpenAI.toOpenAI l /\
   length (OpenAIService.convertHistoryToOpenAI l) = length l /\
   forall i m, nth_error l i = Some m ->
     nth_error (OpenAIService.convertHistoryToOpenAI l) i =
       Some {| OpenAI.role := match type m with
                              | user => OpenAI.user
                              | assistant => OpenAI.assistant
                              end;
               OpenAI.content := content m |}) /\
  (GeminiService.convertHistoryToGemini l = map Gemini.toGemini l /\
   length (GeminiService.convertHistoryToGemini l) = length l /\
   forall i m, nth_error l i = Some m ->
     nth_error (GeminiService.convertHistoryToGemini l) i =
       Some {| Gemini.role := match type m with
                              | user => Gemini.user
                              | assistant => Gemini.model
                              end;
               Gemini.parts := [ {| Gemini.text := content m |} ] |}).
Proof.
  intros H. split.
  - rewrite (convertHistoryToOpenAI_short l H).
    split; [reflexivity|]. split; [apply length_map|].
    intros i m E. rewrite (map_nth_error _ _ _ E).
    unfold OpenAI.toOpenAI. now destruct (type m).
  - rewrite (convertHistoryToGemini_short l H).
    split; [reflexivity|]. split; [apply length_map|].
    intros i m E. rewrite (map_nth_error _ _ _ E).
    unfold Gemini.toGemini. now destruct (type m).
Qed.

Lemma convertHistory_short_log_unchanged_witness :
  length Samples.oneTurn <= 8 /\
  OpenAIService.convertHistoryToOpenAI Samples.oneTurn =
    map OpenAI.toOpenAI Samples.oneTurn /\
  GeminiService.convertHistoryToGemini Samples.oneTurn =
    map Gemini.toGemini Samples.oneTurn.
Proof.
  assert (H : length Samples.oneTurn <= 8) by (vm_compute; lia).
  split; [exact H|].
  destruct (convertHistory_short_log_unchanged Samples.oneTurn H)
    as [[E1 _] [E2 _]].
  split; [exact E1 | exact E2].
Defined.

(** C3, as stated, fails: of nine replies in a row the conversions keep the
    last six and drop one, so the result begins with a reply. *)
Lemma convertHistory_nine_replies_start_with_reply :
  8 < length Samples.nineReplies /\
  (exists m rest,
     OpenAIService.convertHistoryToOpenAI Samples.nineReplies = m :: rest /\
     OpenAI.role m = OpenAI.assistant) /\
  (exists m rest,
     GeminiService.convertHistoryToGemini Samples.nineReplies = m :: rest /\
     Gemini.role m = Gemini.model).
Proof.
  split; [vm_compute; lia|].
  split; eexists; eexists; (split; [vm_compute; reflexivity | reflexivity]).
Qed.

(** C3, amended: for every log of more than eight messages whose last six
    do not begin with two assistant messages in a row, the result of
    [convertHistoryToOpenAI] (resp. [convertHistoryToGemini]) is not empty
    and its first entry does not have the assistant (resp. model) role: the
    conversions drop one leading reply from the last six messages. *)
Theorem convertHistory_long_log_first_role (l : list ChatMessage) :
  8 < length l ->
  startsWithTwoReplies (JS.slice (-6) l) = false ->
  (exists m rest,
     OpenAIService.convertHistoryToOpenAI l = m :: rest /\
     OpenAI.role m <> OpenAI.assistant) /\
  (exists m rest,
     GeminiService.convertHistoryToGemini l = m :: rest /\
     Gemini.role m <> Gemini.model).
Proof.
  intros H T.
  destruct (convertHistoryToOpenAI_long l H) as (a & r & E & EO).
  destruct (convertHistoryToGemini_long l H) as (a' & r' & E' & EG).
  rewrite E in E'. injection E' as <- <-.
  rewrite EO, EG. clear EO EG.
  destruct (slice_last6_shape l) as (x1 & x2 & x3 & x4 & x5 & x6 & S6); [lia|].
  rewrite S6 in E, T. injection E as <- <-.
  unfold startsWithTwoReplies, isReply in T.
  destruct (type x1) eqn:T1.
  - split; eexists; eexists; (split; [reflexivity|]);
      cbn; rewrite T1; discriminate.
  - destruct (type x2) eqn:T2; [|discriminate T].
    split; eexists; eexists; (split; [reflexivity|]);
      cbn; rewrite T2; discriminate.
Qed.

Lemma convertHistory_long_log_first_role_witness :
  8 < length Samples.fiveTurns /\
  startsWithTwoReplies (JS.slice (-6) Samples.fiveTurns) = false /\
  (exists m rest,
     OpenAIService.convertHistoryToOpenAI Samples.fiveTurns = m :: rest /\
     OpenAI.role m <> OpenAI.assistant) /\
  (exists m rest,
     GeminiService.convertHistoryToGemini Samples.fiveTurns = m :: rest /\
     Gemini.role m <> Gemini.model).
Proof.
  assert (H : 8 < length Samples.fiveTurns) by (vm_compute; lia).
  assert (T : startsWithTwoReplies (JS.slice (-6) Samples.fiveTurns) = false)
    by reflexivity.
  split; [exact H|]. split; [exact T|].
  exact (convertHistory_long_log_first_role Samples.fiveTurns H T).
Defined.

(** ** Sending a message *)

Section Sending.
Import ChatService.

Lemma truthy_nonempty (s : string) : s <> EmptyString -> JS.truthy s = true.
Proof. destruct s; [congruence | reflexivity]. Qed.

(** What [sendMessage] hands to the conversion is never long enough for
    its trimming branch. *)
Lemma convertHistoryToOpenAI_last6 (l : list ChatMessage) :
  OpenAIService.convertHistoryToOpenAI (JS.slice (-6) l) =
    map OpenAI.toOpenAI (JS.slice (-6) l).
Proof.
  apply convertHistoryToOpenAI_short. rewrite slice_last6_length. lia.
Qed.

End Sending.

Arguments JS.trim : simpl never.
Arguments JS.slice : simpl never.
Arguments JS.truthy : simpl never.
Arguments OpenAIService.convertHistoryToOpenAI : simpl never.
Arguments OpenAI.settle : simpl never.
Arguments OpenAI.notConfigured : simpl never.
Arguments OpenAI.buildRequest : simpl never.
Arguments Timestamp.inRange : simpl never.
Arguments Timestamp.outOfRange : simpl never.

(** Symbolic execution of [sendMessage]: unfold the computation, then split
    on whatever the world decides. *)
Ltac unfold_send :=
  unfold ChatService.sendMessage, ChatService.getCurrentUser, new_Date,
    FirestoreService.saveMessage, OpenAIService.sendMessage,
    ChatService.firestoreServiceMock_saveMessage,
    subjectMessages_next, assistantResponding_next, console_error,
    historyNext, await, try_finally, try_catch, bind, ret, throw, emit,
    read, update, after.

Ltac split_world :=
  repeat (match goal with
          | |- context [match ?x with _ => _ end] =>
              lazymatch x with
              | context [match _ with _ => _ end] => fail
              | _ => destruct x eqn:?
              end
          end; cbn).

Ltac run_send Hu Ht :=
  apply truthy_nonempty in Ht;
  unfold_send; rewrite Hu; rewrite Ht; cbn; split_world.

Ltac unfold_tasks :=
  unfold Tasks.alone, Tasks.sendMessage, Tasks.saveMessage,
    Tasks.openaiSendMessage, Tasks.try_finallyJ, Tasks.try_catchJ,
    Tasks.bindJ, Tasks.sync, Tasks.throwJ, Tasks.awaitAddDoc, Tasks.awaitPost.

(** The call as a task that has the thread to itself is the call. *)
Lemma alone_sendMessage (text : string) (w : ChatService.SendWorld) (s : System) :
  Tasks.run (Tasks.alone w (Tasks.sendMessage text) s) =
    ChatService.sendMessage text w s.
Proof.
  unfold_tasks. unfold_send. cbn. split_world; reflexivity.
Qed.

(** C5: when no user is signed in, [sendMessage] rejects with the error
    'User not authenticated' whatever the text; nothing is emitted on either
    subject, no call is awaited, and the whole system (message list and busy
    flag included) is as it was before the call. *)
Theorem sendMessage_unauthenticated (s : System) (text : string)
    (w : ChatService.SendWorld) :
  currentUser s = None ->
  let r := ChatService.sendMessage text w s in
  outcome r = Rejected ChatService.notAuthenticated /\
  final r = s /\
  trace r = [ConsoleError "No authenticated user"].
Proof.
  intros Hu. unfold_send. rewrite Hu. cbn. auto.
Qed.

Lemma sendMessage_unauthenticated_witness :
  currentUser Samples.signedOut = None /\
  outcome (ChatService.sendMessage "hello" Samples.answered Samples.signedOut)
    = Rejected ChatService.notAuthenticated /\
  final (ChatService.sendMessage "hello" Samples.answered Samples.signedOut)
    = Samples.signedOut.
Proof.
  assert (H : currentUser Samples.signedOut = None) by reflexivity.
  split; [exact H|].
  destruct (sendMessage_unauthenticated Samples.signedOut "hello" Samples.answered H)
    as (O & F & _).
  split; [exact O | exact F].
Defined.

(** C6: for a signed-in user and a text whose trim is not empty, the call
    of [sendMessage] appends the message of the user, with the trimmed text,
    status sending and the time of the call, before it awaits anything.
    The first event of the call is the emission of the previous list
    followed by exactly that message, and the call of [saveMessage] comes
    next; when the call gives up the thread for the first time (or ends
    without ever doing so) the message list of the service is that list.
    With a user id that is not empty and a time that [Timestamp] accepts,
    the call then sleeps on [addDoc] in the system as it was with nothing
    but the list changed.  This holds whatever the saves and the generation
    do afterwards. *)
Theorem sendMessage_optimistic_append (s : System) (text : string)
    (w : ChatService.SendWorld) (u : User) :
  currentUser s = Some u ->
  JS.trim text <> EmptyString ->
  let appended := subjectMessages s ++ [userMessageOf s u text] in
  (exists o s1 rest,
     Tasks.sendMessage text s =
       mkRun o s1
         (MessagesNext appended :: SaveMessage (userMessageOf s u text) :: rest) /\
     subjectMessages s1 = appended) /\
  (JS.truthy (uid u) = true ->
   Timestamp.inRange (clock s) = true ->
   exists resume,
     Tasks.sendMessage text s =
       mkRun (Resolved
                (Tasks.OnAddDoc
                   (FirestoreService.messageToSave (userMessageOf s u text))
                   resume))
         (set_subjectMessages appended s)
         [MessagesNext appended; SaveMessage (userMessageOf s u text)]) /\
  Tasks.run (Tasks.alone w (Tasks.sendMessage text) s) =
    ChatService.sendMessage text w s /\
  (exists rest,
     trace (ChatService.sendMessage text w s) = MessagesNext appended :: rest).
Proof.
  intros Hu Ht. cbv zeta. unfold userMessageOf.
  split; [|split; [|split; [apply alone_sendMessage|]]].
  - apply truthy_nonempty in Ht.
    unfold_tasks; unfold_send; rewrite Hu; rewrite Ht; cbn; split_world;
      eexists; eexists; eexists; split; reflexivity.
  - intros U R. apply truthy_nonempty in Ht.
    unfold_tasks; unfold_send; rewrite Hu; rewrite Ht; cbn;
      rewrite U; cbn; rewrite Ht; cbn; rewrite R; cbn.
    eexists. reflexivity.
  - run_send Hu Ht; eexists; reflexivity.
Qed.

Lemma sendMessage_optimistic_append_witness :
  currentUser Samples.signedIn = Some Samples.alice /\
  JS.trim " hello " <> EmptyString /\
  exists o s1 rest,
    Tasks.sendMessage " hello " Samples.signedIn =
      mkRun o s1
        (MessagesNext [Samples.question "hello" 1000%Z]
         :: SaveMessage (Samples.question "hello" 1000%Z) :: rest) /\
    subjectMessages s1 = [Samples.question "hello" 1000%Z].
Proof.
  assert (Hu : currentUser Samples.signedIn = Some Samples.alice) by reflexivity.
  assert (Ht : JS.trim " hello " <> EmptyString) by (vm_compute; discriminate).
  split; [exact Hu|]. split; [exact Ht|].
  exact (proj1 (sendMessage_optimistic_append Samples.signedIn " hello "
                  Samples.rateLimited Samples.alice Hu Ht)).
Defined.

(** C7, as stated, fails: nothing keeps a second [sendMessage] from being
    called while a first one awaits its answer.  Here the user sends a and,
    while the answer to a is awaited, sends b, which is answered and
    stored: call a is still under way, the flag has been set twice, and it
    is false although a has not settled.  When a settles in its turn the
    flag has been emitted as true, true, false, false. *)
Lemma overlapping_sends_break_busy_bracket :
  let first :=
    [ Tasks.Call "a"; Tasks.Settle 0 (Tasks.AddDocSettled None);
      Tasks.Call "b"; Tasks.Settle 1 (Tasks.AddDocSettled None);
      Tasks.Settle 1 (Tasks.PostSettled (Samples.answer "Hola"));
      Tasks.Settle 1 (Tasks.AddDocSettled None) ] in
  let last :=
    [ Tasks.Settle 0 (Tasks.PostSettled (Samples.answer "Hola"));
      Tasks.Settle 0 (Tasks.AddDocSettled None) ] in
  let l := Tasks.turns first Samples.signedIn in
  let l' := Tasks.turns (first ++ last) Samples.signedIn in
  Tasks.underWay (nth_error (Tasks.calls l) 0) = true /\
  Tasks.underWay (nth_error (Tasks.calls l) 1) = false /\
  respondingEmissions (Tasks.log l) = [true; true; false] /\
  assistantResponding (Tasks.system l) = false /\
  Tasks.underWay (nth_error (Tasks.calls l') 0) = false /\
  respondingEmissions (Tasks.log l') = [true; true; false; false] /\
  respondingEmissions (Tasks.log l') <> [true; false].
Proof.
  cbv zeta. repeat split; try (vm_compute; reflexivity).
  vm_compute. discriminate.
Qed.

(** C7, amended: for a signed-in user and a text whose trim is not empty,
    when no other call of [sendMessage] is under way between the call and
    its settling, then whether it resolves or rejects it emits on the busy
    subject exactly true and then false; the flag is true whenever the call
    sleeps on the answer of the model or on the storing of the reply (and
    still as it was while the message of the user is being stored); the
    emission of false is the last event of the call, and the flag is false
    afterwards.  A subscriber that saw false before the call therefore sees
    false, true, false. *)
Theorem sendMessage_busy_bracket (s : System) (text : string)
    (w : ChatService.SendWorld) (u : User) :
  currentUser s = Some u ->
  JS.trim text <> EmptyString ->
  let a := Tasks.alone w (Tasks.sendMessage text) s in
  let r := ChatService.sendMessage text w s in
  Tasks.run a = r /\
  Forall (fun p => assistantResponding (snd p) = busyWhile s (fst p))
    (Tasks.waits a) /\
  respondingEmissions (trace r) = [true; false] /\
  (exists t, trace r = t ++ [RespondingNext false]) /\
  assistantResponding (final r) = false /\
  (assistantResponding s = false ->
   assistantResponding s :: respondingEmissions (trace r) = [false; true; false]).
Proof.
  intros Hu Ht.
  assert (W : Forall (fun p => assistantResponding (snd p) = busyWhile s (fst p))
                (Tasks.waits (Tasks.alone w (Tasks.sendMessage text) s))).
  { pose proof (truthy_nonempty _ Ht) as Ht'.
    unfold_tasks; unfold_send; rewrite Hu; rewrite Ht'; cbn; split_world;
      repeat constructor. }
  assert (G : let r := ChatService.sendMessage text w s in
              respondingEmissions (trace r) = [true; false] /\
              last (trace r) (ConsoleError EmptyString) = RespondingNext false /\
              trace r <> [] /\
              assistantResponding (final r) = false).
  { run_send Hu Ht; repeat split; try reflexivity; discriminate. }
  cbv zeta in *. destruct G as (E & L & N & F).
  split; [apply alone_sendMessage|]. split; [exact W|].
  split; [exact E|]. split; [|split; [exact F|]].
  - exists (removelast (trace (ChatService.sendMessage text w s))).
    rewrite <- L. now apply app_removelast_last.
  - intros B. now rewrite E, B.
Qed.

Lemma sendMessage_busy_bracket_witness :
  currentUser Samples.signedIn = Some Samples.alice /\
  JS.trim "hello" <> EmptyString /\
  map (fun p => assistantResponding (snd p))
    (Tasks.waits (Tasks.alone Samples.answered (Tasks.sendMessage "hello")
                    Samples.signedIn))
    = [false; true; true] /\
  respondingEmissions
    (trace (ChatService.sendMessage "hello" Samples.answered Samples.signedIn))
    = [true; false] /\
  assistantResponding
    (final (ChatService.sendMessage "hello" Samples.answered Samples.signedIn))
    = false.
Proof.
  assert (Hu : currentUser Samples.signedIn = Some Samples.alice) by reflexivity.
  assert (Ht : JS.trim "hello" <> EmptyString) by (vm_compute; discriminate).
  split; [exact Hu|]. split; [exact Ht|].
  destruct (sendMessage_busy_bracket Samples.signedIn "hello"
              Samples.answered Samples.alice Hu Ht) as (_ & _ & E & _ & F & _).
  split; [vm_compute; reflexivity|].
  split; [exact E | exact F].
Defined.

(** C4: [sendMessage] hands the conversion the last six messages of the
    current list only, so the trimming branch of the conversion (and its
    drop of a leading reply) is never entered from [sendMessage]: in every
    call that passes validation, [openaiService.sendMessage] is called once,
    with the last six messages of the list current at that moment under the
    role mapping; that list is the previous one with the new message of the
    user appended, unless a snapshot of the history arrived while that
    message was being saved.  The history may begin with an assistant entry,
    as it does after three complete turns. *)
Theorem sendMessage_history_is_last_six :
  (forall (s : System) (text : string) (w : ChatService.SendWorld) (u : User),
      currentUser s = Some u ->
      JS.trim text <> EmptyString ->
      exists current,
        generationCalls (subjectMessages s)
          (trace (ChatService.sendMessage text w s)) =
          [ (current, text, map OpenAI.toOpenAI (JS.slice (-6) current)) ] /\
        (current = subjectMessages s ++ [userMessageOf s u text] \/
         snapshot (ChatService.saveUserMessage w) = Some current)) /\
  (forall log : list ChatMessage,
      (8 <? length (map OpenAI.toOpenAI (JS.slice (-6) log))) = false /\
      OpenAIService.convertHistoryToOpenAI (JS.slice (-6) log) =
        map OpenAI.toOpenAI (JS.slice (-6) log)) /\
  (exists current m rest,
      generationCalls (subjectMessages Samples.afterThreeTurns)
        (trace (ChatService.sendMessage "q4" Samples.answered Samples.afterThreeTurns)) =
        [ (current, "q4", m :: rest) ] /\
      OpenAI.role m = OpenAI.assistant).
Proof.
  split; [|split].
  - intros s text w u Hu Ht.
    unfold userMessageOf.
    run_send Hu Ht; rewrite convertHistoryToOpenAI_last6; eexists;
      (split; [reflexivity | first [left; reflexivity | right; reflexivity]]).
  - intros log. split.
    + apply Nat.ltb_ge. rewrite length_map, slice_last6_length. lia.
    + apply convertHistoryToOpenAI_last6.
  - eexists; eexists; eexists. split; vm_compute; reflexivity.
Qed.

Lemma sendMessage_history_is_last_six_witness :
  currentUser Samples.afterThreeTurns = Some Samples.alice /\
  JS.trim "q4" <> EmptyString /\
  exists current,
    generationCalls (subjectMessages Samples.afterThreeTurns)
      (trace (ChatService.sendMessage "q4" Samples.answered Samples.afterThreeTurns)) =
      [ (current, "q4", map OpenAI.toOpenAI (JS.slice (-6) current)) ].
Proof.
  assert (Hu : currentUser Samples.afterThreeTurns = Some Samples.alice)
    by reflexivity.
  assert (Ht : JS.trim "q4" <> EmptyString) by (vm_compute; discriminate).
  split; [exact Hu|]. split; [exact Ht|].
  destruct (proj1 sendMessage_history_is_last_six Samples.afterThreeTurns "q4"
              Samples.answered Samples.alice Hu Ht) as (current & E & _).
  exists current. exact E.
Defined.

(** C8, as stated, fails: a blank text sent while nobody is signed in does
    not resolve, it rejects. *)
Lemma sendMessage_blank_signed_out_rejects :
  JS.trim "   " = EmptyString /\
  outcome (ChatService.sendMessage "   " Samples.answered Samples.signedOut)
    = Rejected ChatService.notAuthenticated /\
  outcome (ChatService.sendMessage "   " Samples.answered Samples.signedOut)
    <> Resolved tt.
Proof.
  split; [reflexivity|]. split; [reflexivity|]. vm_compute. discriminate.
Qed.

(** C8, amended: for a signed-in user and every text whose trim is empty,
    [sendMessage] resolves without error, emits nothing, awaits no call, and
    leaves the whole system (message list and busy flag included) as it
    was. *)
Theorem sendMessage_blank_is_noop (s : System) (text : string)
    (w : ChatService.SendWorld) (u : User) :
  currentUser s = Some u ->
  JS.trim text = EmptyString ->
  let r := ChatService.sendMessage text w s in
  outcome r = Resolved tt /\ final r = s /\ trace r = [].
Proof.
  intros Hu Ht. unfold_send. rewrite Hu, Ht. cbn. auto.
Qed.

Lemma sendMessage_blank_is_noop_witness :
  currentUser Samples.afterThreeTurns = Some Samples.alice /\
  JS.trim "   " = EmptyString /\
  outcome (ChatService.sendMessage "   " Samples.answered Samples.afterThreeTurns)
    = Resolved tt /\
  final (ChatService.sendMessage "   " Samples.answered Samples.afterThreeTurns)
    = Samples.afterThreeTurns.
Proof.
  assert (Hu : currentUser Samples.afterThreeTurns = Some Samples.alice)
    by reflexivity.
  assert (Ht : JS.trim "   " = EmptyString) by reflexivity.
  split; [exact Hu|]. split; [exact Ht|].
  destruct (sendMessage_blank_is_noop Samples.afterThreeTurns "   "
              Samples.answered Samples.alice Hu Ht) as (O & F & _).
  split; [exact O | exact F].
Defined.

(** C10: [sendMessage] looks for the user before it looks at the text.  For
    a text whose trim is empty, the call rejects with 'User not
    authenticated' when nobody is signed in, and it resolves exactly when
    somebody is. *)
Theorem sendMessage_checks_user_before_text (s : System) (text : string)
    (w : ChatService.SendWorld) :
  JS.trim text = EmptyString ->
  let r := ChatService.sendMessage text w s in
  (currentUser s = None -> outcome r = Rejected ChatService.notAuthenticated) /\
  (outcome r = Resolved tt <-> currentUser s <> None).
Proof.
  intros Ht. unfold_send. rewrite Ht.
  destruct (currentUser s) as [u|]; cbn; split.
  - discriminate.
  - split; [discriminate | reflexivity].
  - reflexivity.
  - split; [discriminate | congruence].
Qed.

Lemma sendMessage_checks_user_before_text_witness :
  JS.trim "   " = EmptyString /\
  outcome (ChatService.sendMessage "   " Samples.rateLimited Samples.signedOut)
    = Rejected ChatService.notAuthenticated.
Proof.
  assert (Ht : JS.trim "   " = EmptyString) by reflexivity.
  split; [exact Ht|].
  exact (proj1 (sendMessage_checks_user_before_text Samples.signedOut "   "
                  Samples.rateLimited Ht) eq_refl).
Defined.

(** When the call rejects and no snapshot arrives meanwhile, the list on
    screen ends with the message of the user: the apology built in the
    [catch] block goes to [firestoreServiceMock.saveMessage], which
    resolves, and is appended nowhere. *)
Lemma sendMessage_rejected_final_log (s : System) (text : string)
    (w : ChatService.SendWorld) (u : User) (e : Error) :
  currentUser s = Some u ->
  JS.trim text <> EmptyString ->
  snapshot (ChatService.saveUserMessage w) = None ->
  snapshot (ChatService.generation w) = None ->
  outcome (ChatService.sendMessage text w s) = Rejected e ->
  subjectMessages (final (ChatService.sendMessage text w s)) =
    subjectMessages s ++ [userMessageOf s u text].
Proof.
  intros Hu Ht S1 S2. unfold userMessageOf.
  apply truthy_nonempty in Ht.
  unfold_send; rewrite Hu; rewrite Ht; rewrite S1; rewrite S2; cbn; split_world;
    intros O; try discriminate O; reflexivity.
Qed.

(** C1 fails on the code.  The API answers the text hello of a signed-in
    user with status 429 and every save succeeds: [sendMessage] rejects with
    the error of the rate limit, the apology is handed to the mock save
    only, and the final message list holds the message of the user alone,
    with no message of status error. *)
Theorem sendMessage_rate_limited_loses_apology :
  let r := ChatService.sendMessage "hello" Samples.rateLimited Samples.signedIn in
  let apologyMessage :=
    {| id := None; userId := "alice"; content := ChatService.apology;
       sentAt := 1010%Z; type := assistant; status := Some error |} in
  outcome r =
    Rejected {| message := "You have exceeded the request limit. Please try again later." |} /\
  In (MockSaveMessage apologyMessage) (trace r) /\
  subjectMessages (final r) =
    [ {| id := None; userId := "alice"; content := "hello"; sentAt := 1000%Z;
         type := user; status := Some sending |} ] /\
  (forall m, In m (subjectMessages (final r)) -> status m <> Some error) /\
  (forall l, In (MessagesNext l) (trace r) -> ~ In apologyMessage l).
Proof.
  cbv zeta. split; [reflexivity|]. split; [vm_compute; tauto|].
  split; [reflexivity|]. split.
  - intros m H. vm_compute in H. destruct H as [<- | []]. discriminate.
  - intros l H. vm_compute in H.
    repeat (destruct H as [H | H]; try discriminate H).
    + injection H as <-. intros [A | []]. discriminate A.
    + destruct H.
Qed.

(** ** Clearing the chat *)

(** C9: in every system reached by a sequence of sends, [clearChat] is
    [subjectMessages.next([])]: it emits the empty list, which is the
    message list from then on, calls neither save, and leaves the stored
    collection, the busy flag, the signed-in user and all the rest of the
    system as they were. *)
Theorem clearChat_resets_messages_only (s0 : System)
    (sends : list (string * ChatService.SendWorld)) :
  let s := ChatService.afterSends sends s0 in
  let r := ChatService.clearChat s in
  ChatService.clearChat = subjectMessages_next [] /\
  outcome r = Resolved tt /\
  trace r = [MessagesNext []] /\
  existsb isStorageCall (trace r) = false /\
  subjectMessages (final r) = [] /\
  final r = set_subjectMessages [] s /\
  messagesCollection (final r) = messagesCollection s /\
  assistantResponding (final r) = assistantResponding s /\
  currentUser (final r) = currentUser s.
Proof.
  cbv zeta. repeat split.
Qed.

(** * Further properties of the services *)

(** ** History conversion: bounds and selection *)

Lemma convertHistory_lengths (l : list ChatMessage) :
  length (OpenAIService.convertHistoryToOpenAI l) <= min 8 (length l) /\
  length (GeminiService.convertHistoryToGemini l) <= min 8 (length l).
Proof.
  destruct (Nat.le_gt_cases (length l) 8) as [H | H].
  - rewrite (convertHistoryToOpenAI_short l H), (convertHistoryToGemini_short l H).
    rewrite !length_map. lia.
  - destruct (convertHistoryToOpenAI_long l H) as (m & rest & E & ->).
    destruct (convertHistoryToGemini_long l H) as (m' & rest' & E' & ->).
    rewrite E in E'. injection E' as <- <-.
    pose proof (slice_last6_length l) as L. rewrite E in L. cbn [length] in L.
    destruct (type m); cbn [map length]; rewrite !length_map; lia.
Qed.

(** X1: whatever the log, neither conversion returns more than eight
    entries, nor more entries than the log has messages. *)
Theorem convertHistory_length_bound (l : list ChatMessage) :
  length (OpenAIService.convertHistoryToOpenAI l) <= min 8 (length l) /\
  length (GeminiService.convertHistoryToGemini l) <= min 8 (length l).
Proof. exact (convertHistory_lengths l). Qed.

(** X2: both conversions return a tail of the log under their role mapping,
    and the same tail: they never reorder, repeat or invent an entry, they
    only drop messages from the front, and they agree on which. *)
Theorem convertHistory_same_tail (l : list ChatMessage) :
  exists k,
    OpenAIService.convertHistoryToOpenAI l = map OpenAI.toOpenAI (skipn k l) /\
    GeminiService.convertHistoryToGemini l = map Gemini.toGemini (skipn k l).
Proof.
  destruct (Nat.le_gt_cases (length l) 8) as [H | H].
  - exists 0. cbn [skipn].
    now rewrite (convertHistoryToOpenAI_short l H), (convertHistoryToGemini_short l H).
  - destruct (convertHistoryToOpenAI_long l H) as (m & rest & E & ->).
    destruct (convertHistoryToGemini_long l H) as (m' & rest' & E' & ->).
    rewrite E in E'. injection E' as <- <-.
    rewrite slice_last6 in E.
    destruct (type m).
    + exists (length l - 6). now rewrite E.
    + exists (1 + (length l - 6)). rewrite <- skipn_skipn, E. now cbn [skipn].
Qed.

(** ** The request pipe of OpenAI *)

Section OpenAIPipe.

Lemma OpenAI_describeError_cases (st : option Z) (m : option string) :
  In (message (OpenAI.describeError st m)) openaiFixedMessages \/
  (m = Some (message (OpenAI.describeError st m)) /\
   JS.truthy (message (OpenAI.describeError st m)) = true).
Proof.
  unfold OpenAI.describeError, openaiFixedMessages. cbn [message].
  destruct st as [k|].
  - destruct (k =? 400)%Z; [cbn; tauto|].
    destruct (k =? 401)%Z; [cbn; tauto|].
    destruct (k =? 429)%Z; [cbn; tauto|].
    destruct (k =? 500)%Z; [cbn; tauto|].
    destruct m as [x|]; [|cbn; tauto].
    destruct (JS.truthy x) eqn:T; [right; split; auto | cbn; tauto].
  - destruct m as [x|]; [|cbn; tauto].
    destruct (JS.truthy x) eqn:T; [right; split; auto | cbn; tauto].
Qed.

End OpenAIPipe.

(** X3: every error that the pipe of [OpenAIService.sendMessage] delivers
    has a message that is not empty: one of its five fixed texts, or the
    message of the API.  A response without usable content is always
    reported as 'Error connecting to OpenAI': the two texts that the [map]
    stage throws never reach the caller. *)
Theorem OpenAI_settle_error_message (r : OpenAI.HttpResult) (e : Error) :
  OpenAI.settle r = inr e ->
  JS.truthy (message e) = true /\
  (In (message e) openaiFixedMessages \/
   exists st, r = OpenAI.HttpFailure st (Some (message e))) /\
  (forall choices, r = OpenAI.HttpResponse choices ->
     message e = "Error connecting to OpenAI").
Proof.
  intros H. destruct r as [choices | st m]; unfold OpenAI.settle in H.
  - destruct (OpenAI.extractContent choices); [discriminate|].
    injection H as <-. cbn. split; [reflexivity|]. split; [tauto|]. reflexivity.
  - injection H as <-.
    destruct (OpenAI_describeError_cases (Some st) m) as [F | [E T]].
    + split; [|split; [left; exact F | discriminate]].
      unfold openaiFixedMessages in F. cbn [In] in F.
      repeat (destruct F as [<- | F]; [reflexivity|]). destruct F.
    + split; [exact T|]. split; [|discriminate].
      right. exists st. now rewrite E at 1.
Qed.

Lemma OpenAI_settle_error_message_witness :
  OpenAI.settle (OpenAI.HttpResponse []) =
    inr {| message := "Error connecting to OpenAI" |} /\
  JS.truthy "Error connecting to OpenAI" = true.
Proof.
  assert (H : OpenAI.settle (OpenAI.HttpResponse []) =
              inr {| message := "Error connecting to OpenAI" |}) by reflexivity.
  split; [exact H|].
  exact (proj1 (OpenAI_settle_error_message _ _ H)).
Defined.

(** X4: when the pipe delivers a text, it comes from the first choice of the
    response, whose content is not empty: the text is that content, followed
    by the truncation note exactly when the finish reason is length; so the
    text that [ChatService] receives is never empty. *)
Theorem OpenAI_settle_text (r : OpenAI.HttpResult) (t : string) :
  OpenAI.settle r = inl t ->
  exists choice rest m,
    r = OpenAI.HttpResponse (choice :: rest) /\
    OpenAI.choice_message choice = Some m /\
    JS.truthy (OpenAI.msg_content m) = true /\
    JS.truthy t = true /\
    t = (if String.eqb (OpenAI.finish_reason choice) "length"
         then (OpenAI.msg_content m ++ JS.LF ++ JS.LF ++
               "[Note: Response truncated due to token limit. You can ask me to continue.]")%string
         else OpenAI.msg_content m).
Proof.
  intros H. destruct r as [choices | st m]; unfold OpenAI.settle in H; [|discriminate].
  destruct choices as [|choice rest]; cbn [OpenAI.extractContent] in H; [discriminate|].
  destruct (OpenAI.choice_message choice) as [m|] eqn:M; [|discriminate].
  destruct (JS.truthy (OpenAI.msg_content m)) eqn:T; [|discriminate].
  injection H as <-.
  exists choice, rest, m. repeat split; auto.
  destruct (String.eqb _ _); [|exact T].
  destruct (OpenAI.msg_content m); [discriminate T | reflexivity].
Qed.

Lemma OpenAI_settle_text_witness :
  OpenAI.settle (Samples.answer "Hola") = inl "Hola" /\
  JS.truthy "Hola" = true.
Proof.
  assert (H : OpenAI.settle (Samples.answer "Hola") = inl "Hola") by reflexivity.
  split; [exact H|].
  destruct (OpenAI_settle_text _ _ H) as (c & rest & m & _ & _ & _ & T & _).
  exact T.
Defined.

(** X5: [OpenAIService.sendMessage] posts a request exactly when an API key
    other than the placeholder is configured.  Without one it rejects at
    once with its configuration error, leaving the system as it was; with
    one it posts the system prompt, the history and the message, in this
    order, and settles as the pipe does. *)
Theorem OpenAIService_sendMessage_needs_key (message : string)
    (history : list OpenAI.MessageOpenAI)
    (w : Suspension OpenAI.HttpResult) (s : System) :
  let r := OpenAIService.sendMessage message history w s in
  let cfg := openaiConfig s in
  if OpenAI.notConfigured cfg then
    outcome r = Rejected OpenAI.notConfiguredError /\
    final r = s /\
    (forall req, ~ In (HttpPost req) (trace r))
  else
    (exists req,
       In (HttpPost req) (trace r) /\
       OpenAI.req_messages req =
         OpenAI.systemMessage :: history
         ++ [ {| OpenAI.role := OpenAI.user; OpenAI.content := message |} ]) /\
    outcome r = match OpenAI.settle (result w) with
                | inl t => Resolved t
                | inr e => Rejected e
                end.
Proof.
  cbv zeta. unfold OpenAIService.sendMessage, console_error, historyNext,
    subjectMessages_next, await, bind, ret, throw, emit, read, update, after.
  destruct (OpenAI.notConfigured (openaiConfig s)); cbn.
  - split; [reflexivity|]. split; [reflexivity|].
    intros req [H | [H | []]]; discriminate H.
  - destruct (snapshot w); cbn;
      destruct (OpenAI.settle (result w)); cbn;
      (split; [eexists; split; [right; left; reflexivity | reflexivity] | reflexivity]).
Qed.

(** X6: every request body that a history conversion feeds stays small: at
    most ten messages for OpenAI (system prompt, at most eight of history,
    the message), at most eleven contents for Gemini. *)
Theorem request_size_bound (l : list ChatMessage) (message : string)
    (cfg : OpenAI.Config) :
  length (OpenAI.req_messages
            (OpenAI.buildRequest cfg message
               (OpenAIService.convertHistoryToOpenAI l))) <= 10 /\
  length (GeminiSend.contents
            (GeminiSend.buildRequest message
               (GeminiService.convertHistoryToGemini l))) <= 11.
Proof.
  destruct (convertHistory_lengths l) as [O G].
  unfold OpenAI.buildRequest, GeminiSend.buildRequest.
  cbn [OpenAI.req_messages GeminiSend.contents length].
  rewrite !length_app. cbn [length]. lia.
Qed.

(** ** The request pipe of Gemini *)

(** X7: every error that the pipe of [GeminiService.sendMessage] delivers
    has a message that is not empty, one of its five fixed texts or the
    message of the API, and a response without usable parts is always
    reported as 'Error connecting to Gemini'.  Unlike the pipe of OpenAI it
    delivers the text of the first part as it is, empty or not. *)
Theorem Gemini_settle_outcomes (r : GeminiSend.HttpResult) :
  match GeminiSend.settle r with
  | inr e =>
      JS.truthy (message e) = true /\
      (In (message e) geminiFixedMessages \/
       exists st, r = GeminiSend.HttpFailure st (Some (message e))) /\
      (forall candidates, r = GeminiSend.HttpResponse candidates ->
         message e = "Error connecting to Gemini")
  | inl t =>
      exists candidate rest part parts,
        r = GeminiSend.HttpResponse (candidate :: rest) /\
        GeminiSend.candidate_parts candidate = Some (part :: parts) /\
        t = (if String.eqb (GeminiSend.finishReason candidate) "MAX_TOKENS"
             then (Gemini.text part ++ JS.LF ++ JS.LF ++
                   "[Note: Response truncated due to token limit. You can ask me to continue.]")%string
             else Gemini.text part)
  end.
Proof.
  destruct r as [candidates | st m]; unfold GeminiSend.settle.
  - destruct candidates as [|candidate rest]; cbn [GeminiSend.extractContent].
    + cbn. split; [reflexivity|]. split; [tauto | reflexivity].
    + destruct (GeminiSend.candidate_parts candidate) as [[|part parts]|] eqn:P.
      * cbn. split; [reflexivity|]. split; [tauto | reflexivity].
      * exists candidate, rest, part, parts. auto.
      * cbn. split; [reflexivity|]. split; [tauto | reflexivity].
  - unfold GeminiSend.describeError, geminiFixedMessages. cbn [message].
    destruct (st =? 400)%Z; [cbn; split; [reflexivity|]; split; [tauto | discriminate]|].
    destruct (st =? 403)%Z; [cbn; split; [reflexivity|]; split; [tauto | discriminate]|].
    destruct (st =? 429)%Z; [cbn; split; [reflexivity|]; split; [tauto | discriminate]|].
    destruct (st =? 500)%Z; [cbn; split; [reflexivity|]; split; [tauto | discriminate]|].
    destruct m as [x|]; [|cbn; split; [reflexivity|]; split; [tauto | discriminate]].
    destruct (JS.truthy x) eqn:T.
    + split; [exact T|]. split; [right; now exists st | discriminate].
    + cbn; split; [reflexivity|]; split; [tauto | discriminate].
Qed.

(** ** Firestore: saving and loading *)

Section Saving.
Import FirestoreService.

Ltac unfold_save :=
  unfold saveMessage, console_error, historyNext, subjectMessages_next,
    await, try_catch, bind, ret, throw, emit, read, update, after.

(** X8: [saveMessage] refuses a message without a user id or without
    content before it calls [addDoc]: it rejects with 'userId is required',
    or else 'content is required', and the system, stored collection
    included, is as it was. *)
Theorem saveMessage_rejects_incomplete (m : ChatMessage)
    (w : Suspension (option Error)) (s : System) :
  (JS.truthy (userId m) && JS.truthy (content m))%bool = false ->
  let r := saveMessage m w s in
  outcome r =
    Rejected {| message := if JS.truthy (userId m) then "content is required"
                           else "userId is required" |} /\
  final r = s.
Proof.
  intros H. unfold_save.
  destruct (JS.truthy (userId m)); cbn in *; [rewrite H; cbn|]; auto.
Qed.

Lemma saveMessage_rejects_incomplete_witness :
  outcome (saveMessage (Samples.question EmptyString 10%Z)
             (Samples.quiet None) Samples.signedIn)
    = Rejected {| message := "content is required" |}.
Proof.
  exact (proj1 (saveMessage_rejects_incomplete
                  (Samples.question EmptyString 10%Z)
                  (Samples.quiet None) Samples.signedIn eq_refl)).
Defined.

(** X9: for a message with a user id and content whose time [Timestamp]
    accepts, [saveMessage] resolves exactly when [addDoc] does.  It then
    has appended one document to the stored collection, that of the message
    with [status || 'sent']; otherwise it rejects with the error of
    [addDoc] and the collection is as it was.  For a time before the year 1
    or after the year 9999 it rejects with the error of [Timestamp] before
    it calls [addDoc], and the system is as it was. *)
Theorem saveMessage_stores_one_document (m : ChatMessage)
    (w : Suspension (option Error)) (s : System) :
  JS.truthy (userId m) = true ->
  JS.truthy (content m) = true ->
  let r := saveMessage m w s in
  if Timestamp.inRange (sentAt m) then
    match result w with
    | None =>
        outcome r = Resolved tt /\
        messagesCollection (final r) = messagesCollection s ++ [messageToSave m] /\
        stored_status (messageToSave m) = storedStatus m
    | Some e =>
        outcome r = Rejected e /\
        messagesCollection (final r) = messagesCollection s
    end
  else
    outcome r = Rejected (Timestamp.outOfRange (sentAt m)) /\
    final r = s.
Proof.
  intros U C. unfold_save. rewrite U, C. cbn.
  destruct (Timestamp.inRange (sentAt m)); cbn; [|auto].
  destruct (snapshot w); cbn; destruct (result w); cbn; auto.
Qed.

Lemma saveMessage_stores_one_document_witness :
  outcome (saveMessage (Samples.question "q" 10%Z)
             (Samples.quiet None) Samples.signedIn) = Resolved tt /\
  messagesCollection
    (final (saveMessage (Samples.question "q" 10%Z)
              (Samples.quiet None) Samples.signedIn))
    = [messageToSave (Samples.question "q" 10%Z)].
Proof.
  pose proof (saveMessage_stores_one_document (Samples.question "q" 10%Z)
                (Samples.quiet None) Samples.signedIn eq_refl eq_refl) as H.
  cbv zeta in H.
  change (Timestamp.inRange (sentAt (Samples.question "q" 10%Z))) with true in H.
  destruct H as (O & C & _).
  split; [exact O | exact C].
Defined.

End Saving.

Section Loading.
Import FirestoreQuery.

Lemma insertBySentAt_perm (m : ChatMessage) (l : list ChatMessage) :
  Permutation (m :: l) (insertBySentAt m l).
Proof.
  induction l as [|x l IH]; cbn [insertBySentAt]; [reflexivity|].
  destruct (sentAt m <=? sentAt x)%Z; [reflexivity|].
  rewrite perm_swap. now apply perm_skip.
Qed.

Lemma insertBySentAt_sorted (m : ChatMessage) (l : list ChatMessage) :
  chronological l -> chronological (insertBySentAt m l).
Proof.
  unfold chronological.
  induction l as [|x l IH]; intros S; cbn [insertBySentAt].
  - repeat constructor.
  - destruct (Z.leb_spec (sentAt m) (sentAt x)) as [L | L].
    + constructor; [exact S|]. constructor. exact L.
    + inversion S as [|? ? S' Hd]; subst.
      constructor; [now apply IH|].
      destruct l as [|y l]; cbn [insertBySentAt].
      * constructor. unfold earlier. lia.
      * destruct (sentAt m <=? sentAt y)%Z.
        -- constructor. unfold earlier. lia.
        -- inversion Hd; subst. now constructor.
Qed.

Lemma sortBySentAt_sorted (l : list ChatMessage) :
  chronological (sortBySentAt l) /\ Permutation l (sortBySentAt l).
Proof.
  induction l as [|m l [S P]]; cbn [sortBySentAt].
  - split; [constructor | reflexivity].
  - split; [now apply insertBySentAt_sorted|].
    rewrite <- insertBySentAt_perm. now apply perm_skip.
Qed.

Lemma saveMessage_resolved (m : ChatMessage)
    (w : Suspension (option Error)) (s : System) :
  outcome (FirestoreService.saveMessage m w s) = Resolved tt ->
  messagesCollection (final (FirestoreService.saveMessage m w s)) =
    messagesCollection s ++ [FirestoreService.messageToSave m].
Proof.
  unfold FirestoreService.saveMessage, console_error, historyNext,
    subjectMessages_next, await, try_catch, bind, ret, throw, emit, read,
    update, after.
  destruct (JS.truthy (userId m)); cbn; [|discriminate].
  destruct (JS.truthy (content m)); cbn; [|discriminate].
  destruct (Timestamp.inRange (sentAt m)); cbn; [|discriminate].
  destruct (snapshot w); cbn; destruct (result w); cbn;
    first [discriminate | reflexivity].
Qed.

(** X10: when [saveMessage] has resolved for a message, the stored
    collection ends with a document of it, and every snapshot that holds
    this document, under whatever id, brings the message back through the
    listener of [getUserMessages]: same user, content, time and type, the
    id of the document as id and [status || 'sent'] as status. *)
Theorem save_load_round_trip (m : ChatMessage)
    (w : Suspension (option Error)) (s : System) :
  outcome (FirestoreService.saveMessage m w s) = Resolved tt ->
  exists d,
    messagesCollection (final (FirestoreService.saveMessage m w s)) =
      messagesCollection s ++ [d] /\
    forall (docs : list QueryDocument) (i : string),
      In {| doc_id := i; doc_data := d |} docs ->
      In {| id := Some i; userId := userId m; content := content m;
            sentAt := sentAt m; type := type m;
            status := Some (storedStatus m) |}
         (snapshotMessages docs).
Proof.
  intros O. exists (FirestoreService.messageToSave m).
  split; [now apply saveMessage_resolved|].
  intros docs i H. unfold snapshotMessages.
  apply (Permutation_in _ (proj2 (sortBySentAt_sorted _))).
  exact (in_map toChatMessage _ _ H).
Qed.

Lemma save_load_round_trip_witness :
  outcome (FirestoreService.saveMessage (Samples.question "q" 10%Z)
             (Samples.quiet None) Samples.signedIn) = Resolved tt /\
  exists d,
    messagesCollection
      (final (FirestoreService.saveMessage (Samples.question "q" 10%Z)
                (Samples.quiet None) Samples.signedIn)) = [d] /\
    In {| id := Some "d1"; userId := "alice"; content := "q"; sentAt := 10%Z;
          type := user; status := Some sending |}
       (snapshotMessages [ {| doc_id := "d1"; doc_data := d |} ]).
Proof.
  assert (O : outcome (FirestoreService.saveMessage (Samples.question "q" 10%Z)
                         (Samples.quiet None) Samples.signedIn) = Resolved tt)
    by reflexivity.
  split; [exact O|].
  destruct (save_load_round_trip _ _ _ O) as (d & C & L).
  exists d. split; [exact C|].
  exact (L [ {| doc_id := "d1"; doc_data := d |} ] "d1" (or_introl eq_refl)).
Defined.

(** X11: what the snapshot listener hands on is the messages of the
    documents, each exactly once, in ascending order of [sentAt]. *)
Theorem snapshotMessages_sorted (docs : list QueryDocument) :
  chronological (snapshotMessages docs) /\
  Permutation (map toChatMessage docs) (snapshotMessages docs).
Proof.
  unfold snapshotMessages. apply sortBySentAt_sorted.
Qed.

(** X12: documents that arrive in ascending order of [sentAt] are handed on
    in the order of their arrival, messages of equal time included. *)
Theorem snapshotMessages_keeps_sorted_input (docs : list QueryDocument) :
  chronological (map toChatMessage docs) ->
  snapshotMessages docs = map toChatMessage docs.
Proof.
  unfold snapshotMessages, chronological.
  induction (map toChatMessage docs) as [|m l IH]; intros S; [reflexivity|].
  inversion S as [|? ? S' Hd]; subst.
  cbn [sortBySentAt]. rewrite (IH S').
  destruct l as [|x l]; [reflexivity|].
  cbn [insertBySentAt]. inversion Hd as [|? ? E]; subst.
  unfold earlier in E.
  destruct (Z.leb_spec (sentAt m) (sentAt x)); [reflexivity | lia].
Qed.

End Loading.

Lemma snapshotMessages_keeps_sorted_input_witness :
  chronological (map FirestoreQuery.toChatMessage MoreSamples.twoDocuments) /\
  FirestoreQuery.snapshotMessages MoreSamples.twoDocuments =
    map FirestoreQuery.toChatMessage MoreSamples.twoDocuments.
Proof.
  assert (H : chronological
                (map FirestoreQuery.toChatMessage MoreSamples.twoDocuments)).
  { repeat constructor. unfold earlier. simpl. lia. }
  split; [exact H|].
  exact (snapshotMessages_keeps_sorted_input MoreSamples.twoDocuments H).
Defined.

(** ** Loading the history *)

Section Hydration.
Import FirestoreQuery.

Lemma outcome_after {A} (t : list Event) (r : Run A) :
  outcome (after t r) = outcome r.
Proof. now destruct r. Qed.

Lemma final_after {A} (t : list Event) (r : Run A) :
  final (after t r) = final r.
Proof. now destruct r. Qed.

Lemma trace_after {A} (t : list Event) (r : Run A) :
  trace (after t r) = t ++ trace r.
Proof. now destruct r. Qed.


Lemma deliver_snapshot (docs : list QueryDocument) (s : System) :
  exists s' t,
    deliver (Snapshot docs) s = mkRun (Resolved tt) s' t /\
    loadingHistory s' = false /\
    subjectMessages s' = snapshotMessages docs.
Proof.
  eexists; eexists; (split; [reflexivity|]); split; reflexivity.
Qed.

Lemma deliver_error (s : System) :
  exists s' t,
    deliver QueryError s = mkRun (Resolved tt) s' t /\
    loadingHistory s' = false /\
    subjectMessages s' = [].
Proof.
  eexists; eexists; (split; [reflexivity|]); split; reflexivity.
Qed.

Lemma deliverAll_snapshots (docss : list (list QueryDocument))
    (docs : list QueryDocument) (s : System) :
  let r := deliverAll (map Snapshot docss ++ [Snapshot docs]) s in
  outcome r = Resolved tt /\
  loadingHistory (final r) = false /\
  subjectMessages (final r) = snapshotMessages docs.
Proof.
  cbv zeta. revert s.
  induction docss as [|d0 docss IH]; intros s; cbn [map app deliverAll].
  - destruct (deliver_snapshot docs s) as (s' & t & E & L & M).
    unfold bind. rewrite E. cbn. auto.
  - destruct (deliver_snapshot d0 s) as (s' & t & E & _ & _).
    unfold bind. rewrite E. rewrite outcome_after, final_after. apply IH.
Qed.

Lemma deliverAll_error (docss : list (list QueryDocument))
    (later : list Delivery) (s : System) :
  let r := deliverAll (map Snapshot docss ++ QueryError :: later) s in
  outcome r = Resolved tt /\
  loadingHistory (final r) = false /\
  subjectMessages (final r) = [].
Proof.
  cbv zeta. revert s.
  induction docss as [|d0 docss IH]; intros s; cbn [map app deliverAll].
  - destruct (deliver_error s) as (s' & t & E & L & M). rewrite E. cbn. auto.
  - destruct (deliver_snapshot d0 s) as (s' & t & E & _ & _).
    unfold bind. rewrite E. rewrite outcome_after, final_after. apply IH.
Qed.

End Hydration.

(** X13: once [initializeChat] has subscribed, as long as the live query
    delivers snapshots the service never fails, the history is no longer
    loading after a delivery, and the list on screen is the last snapshot
    in ascending order of [sentAt].  Once the query has failed the list is
    empty and stays so, whatever the query would deliver later: the
    subscription has ended. *)
Theorem history_shows_last_delivery (uid : string)
    (docss : list (list FirestoreQuery.QueryDocument)) (s : System) :
  (forall docs,
     let r := bind (ChatService.initializeChat uid)
                (fun _ => FirestoreQuery.deliverAll
                            (map FirestoreQuery.Snapshot docss
                             ++ [FirestoreQuery.Snapshot docs])) s in
     outcome r = Resolved tt /\
     loadingHistory (final r) = false /\
     subjectMessages (final r) = FirestoreQuery.snapshotMessages docs /\
     chronological (subjectMessages (final r))) /\
  (forall later,
     let r := bind (ChatService.initializeChat uid)
                (fun _ => FirestoreQuery.deliverAll
                            (map FirestoreQuery.Snapshot docss
                             ++ FirestoreQuery.QueryError :: later)) s in
     outcome r = Resolved tt /\
     loadingHistory (final r) = false /\
     subjectMessages (final r) = []).
Proof.
  assert (E : exists s', forall k : unit -> Async unit,
             bind (ChatService.initializeChat uid) k s = k tt s').
  { unfold ChatService.initializeChat, bind, read, update, ret.
    exists (if loadingHistory s then s else set_loadingHistory true s).
    intros k. destruct (loadingHistory s); cbn;
      match goal with |- context [k tt ?x] => destruct (k tt x) end;
      reflexivity. }
  destruct E as (s' & E). split.
  - intros docs. cbv zeta. rewrite E.
    destruct (deliverAll_snapshots docss docs s') as (O & L & M).
    repeat split; auto. rewrite M. apply sortBySentAt_sorted.
  - intros later. cbv zeta. rewrite E.
    exact (deliverAll_error docss later s').
Qed.

(** ** Sending a message: outcome, list, storage and request *)

Section SendingFurther.
Import ChatService.



(** X14: for a signed-in user and a text whose trim is not empty,
    [sendMessage] resolves exactly when OpenAI is configured and its pipe
    delivers a text.  Whether the two saves succeed, fail or are refused
    plays no part: a failed save never fails the send. *)
Theorem sendMessage_resolves_iff_generated (s : System) (text : string)
    (w : SendWorld) (u : User) :
  currentUser s = Some u ->
  JS.trim text <> EmptyString ->
  (outcome (sendMessage text w s) = Resolved tt <->
   OpenAI.notConfigured (openaiConfig s) = false /\
   exists t, OpenAI.settle (result (generation w)) = inl t).
Proof.
  intros Hu Ht.
  run_send Hu Ht;
    (split;
     [ intros O;
       first [discriminate O | split; [reflexivity | eexists; reflexivity]]
     | intros [N [t E]];
       first [discriminate N | discriminate E | reflexivity] ]).
Qed.

Lemma sendMessage_resolves_iff_generated_witness :
  currentUser Samples.signedIn = Some Samples.alice /\
  JS.trim "hello" <> EmptyString /\
  outcome (sendMessage "hello" Samples.answered Samples.signedIn) = Resolved tt.
Proof.
  assert (Hu : currentUser Samples.signedIn = Some Samples.alice) by reflexivity.
  assert (Ht : JS.trim "hello" <> EmptyString) by (vm_compute; discriminate).
  split; [exact Hu|]. split; [exact Ht|].
  apply (proj2 (sendMessage_resolves_iff_generated Samples.signedIn "hello"
                  Samples.answered Samples.alice Hu Ht)).
  split; [reflexivity | exists "Hola"; reflexivity].
Defined.



(** X16: for a signed-in user and a text whose trim is not empty, whatever
    the world does, [sendMessage] only appends to the stored collection, at
    most two documents, all of the user signed in: the message of the user
    under the status sending and the reply under the status sent.  The
    apology of the error path is never stored. *)
Theorem sendMessage_storage (s : System) (text : string)
    (w : SendWorld) (u : User) :
  currentUser s = Some u ->
  JS.trim text <> EmptyString ->
  exists docs,
    messagesCollection (final (sendMessage text w s)) =
      messagesCollection s ++ docs /\
    length docs <= 2 /\
    Forall (storedBySend u text) docs.
Proof.
  intros Hu Ht.
  run_send Hu Ht; rewrite <- ?app_assoc; cbn [app];
    first
      [ exists []; split; [symmetry; apply app_nil_r|];
        split; [cbn; lia | constructor]
      | eexists; split; [reflexivity|];
        split; [cbn; lia|];
        repeat constructor; cbn; try discriminate; try reflexivity;
        intros X; discriminate X ].
Qed.

Lemma sendMessage_storage_witness :
  currentUser Samples.signedIn = Some Samples.alice /\
  JS.trim "hello" <> EmptyString /\
  exists docs,
    messagesCollection
      (final (sendMessage "hello" Samples.rateLimited Samples.signedIn)) =
      messagesCollection Samples.signedIn ++ docs /\
    length docs <= 2.
Proof.
  assert (Hu : currentUser Samples.signedIn = Some Samples.alice) by reflexivity.
  assert (Ht : JS.trim "hello" <> EmptyString) by (vm_compute; discriminate).
  split; [exact Hu|]. split; [exact Ht|].
  destruct (sendMessage_storage Samples.signedIn "hello" Samples.rateLimited
              Samples.alice Hu Ht) as (docs & E & L & _).
  exists docs. split; [exact E | exact L].
Defined.

End SendingFurther.

Section SendingRequests.
Import ChatService.






Lemma placeholder_notConfigured (cfg : OpenAI.Config) :
  OpenAI.apiKey cfg = "TU_API_KEY_DE_OPENAI" ->
  OpenAI.notConfigured cfg = true /\
  JS.truthy (OpenAI.apiKey cfg) = true.
Proof.
  intros K. unfold OpenAI.notConfigured. rewrite K. split; reflexivity.
Qed.

(** X18: [isChatReady] is a query that changes nothing, and it answers true
    exactly when somebody is signed in and key, address and model are all
    not empty.  It therefore answers true for the placeholder key
    'TU_API_KEY_DE_OPENAI' as well, with which every [sendMessage] of a
    text that is not blank is rejected with the configuration error,
    without any request being posted. *)
Theorem isChatReady_accepts_placeholder_key (s : System) (text : string)
    (w : SendWorld) :
  (exists ready,
     isChatReady s = mkRun (Resolved ready) s [] /\
     (ready = true <->
      currentUser s <> None /\
      JS.truthy (OpenAI.apiKey (openaiConfig s)) = true /\
      JS.truthy (OpenAI.apiUrl (openaiConfig s)) = true /\
      JS.truthy (OpenAI.model (openaiConfig s)) = true)) /\
  (currentUser s <> None ->
   OpenAI.apiKey (openaiConfig s) = "TU_API_KEY_DE_OPENAI" ->
   JS.truthy (OpenAI.apiUrl (openaiConfig s)) = true ->
   JS.truthy (OpenAI.model (openaiConfig s)) = true ->
   JS.trim text <> EmptyString ->
   outcome (isChatReady s) = Resolved true /\
   outcome (sendMessage text w s) = Rejected OpenAI.notConfiguredError /\
   postedRequests (trace (sendMessage text w s)) = []).
Proof.
  assert (R : isChatReady s =
              mkRun (Resolved
                       ((match currentUser s with Some _ => true | None => false end)
                        && (JS.truthy (OpenAI.apiKey (openaiConfig s))
                            && JS.truthy (OpenAI.apiUrl (openaiConfig s))
                            && JS.truthy (OpenAI.model (openaiConfig s))))%bool)
                s []).
  { unfold isChatReady, getCurrentUser, OpenAIService.verifyConfiguration,
      OpenAI.verifyConfiguration, bind, read, ret, after.
    reflexivity. }
  split.
  - eexists. split; [exact R|].
    destruct (currentUser s);
      destruct (JS.truthy (OpenAI.apiKey (openaiConfig s)));
      destruct (JS.truthy (OpenAI.apiUrl (openaiConfig s)));
      destruct (JS.truthy (OpenAI.model (openaiConfig s))); cbn;
      (split; [intros H; try discriminate H; repeat split; discriminate
              | intros (A & B & C & D);
                first [reflexivity | discriminate | now elim A]]).
  - intros Hu K U M Ht.
    destruct (placeholder_notConfigured _ K) as [N T].
    destruct (currentUser s) as [u|] eqn:Hu'; [clear Hu | now elim Hu].
    split.
    + rewrite R, T, U, M. reflexivity.
    + apply truthy_nonempty in Ht.
      unfold_send; rewrite Hu'; rewrite Ht; cbn; rewrite ?N; cbn; split_world;
        try rewrite N in *; try discriminate; split; reflexivity.
Qed.

Lemma isChatReady_accepts_placeholder_key_witness :
  isChatReady MoreSamples.unconfigured =
    mkRun (Resolved true) MoreSamples.unconfigured [] /\
  outcome (sendMessage "hello" Samples.answered MoreSamples.unconfigured) =
    Rejected OpenAI.notConfiguredError.
Proof.
  assert (Ht : JS.trim "hello" <> EmptyString) by (vm_compute; discriminate).
  assert (Hu : currentUser MoreSamples.unconfigured <> None) by discriminate.
  destruct (proj2 (isChatReady_accepts_placeholder_key MoreSamples.unconfigured
                     "hello" Samples.answered) Hu eq_refl eq_refl eq_refl Ht)
    as (_ & O & _).
  split; [reflexivity | exact O].
Defined.

End SendingRequests.

(** ** Chronological order of the list on screen *)

Section Chronology.
Import ChatService.

Lemma chronological_snoc (l : list ChatMessage) (m : ChatMessage) :
  chronological l ->
  Forall (fun x => (sentAt x <= sentAt m)%Z) l ->
  chronological (l ++ [m]).
Proof.
  unfold chronological. induction l as [|x l IH]; intros S F; cbn [app].
  - repeat constructor.
  - inversion S as [|? ? S' Hd]; subst. inversion F as [|? ? Fx F']; subst.
    constructor; [now apply IH|].
    destruct l as [|y l]; cbn [app].
    + constructor. exact Fx.
    + inversion Hd; subst. now constructor.
Qed.

Lemma timelyAt_later (l : list ChatMessage) (c c' : Date) :
  timelyAt l c -> (c <= c')%Z -> timelyAt l c'.
Proof.
  intros [S F] L. split; [exact S|].
  eapply Forall_impl; [|exact F]. cbn. intros; lia.
Qed.

Lemma timelyAt_snoc (l : list ChatMessage) (c c' : Date) (m : ChatMessage) :
  timelyAt l c -> (c <= sentAt m)%Z -> (sentAt m <= c')%Z ->
  timelyAt (l ++ [m]) c'.
Proof.
  intros [S F] L L'. split.
  - apply chronological_snoc; [exact S|].
    eapply Forall_impl; [|exact F]. cbn. intros; lia.
  - apply Forall_app. split.
    + eapply Forall_impl; [|exact F]. cbn. intros; lia.
    + repeat constructor. exact L'.
Qed.

Lemma timelyAt_snoc2 (l : list ChatMessage) (c c' : Date) (m1 m2 : ChatMessage) :
  timelyAt l c -> (c <= sentAt m1)%Z -> (sentAt m1 <= sentAt m2)%Z ->
  (sentAt m2 <= c')%Z ->
  timelyAt ((l ++ [m1]) ++ [m2]) c'.
Proof.
  intros T L1 L2 L3.
  apply timelyAt_snoc with (c := sentAt m1); [|exact L2 | exact L3].
  apply timelyAt_snoc with (c := c); [exact T | exact L1 | lia].
Qed.

Lemma sendMessage_timely (s : System) (text : string) (w : SendWorld) :
  timely s -> undisturbed w -> forward w ->
  timely (final (sendMessage text w s)).
Proof.
  intros T (S1 & S2 & S3) (E1 & E2 & E3). unfold timely in *.
  unfold_send; rewrite S1; rewrite S2; rewrite ?S3; cbn; split_world;
    first
      [ exact T
      | eapply timelyAt_snoc2; [exact T | cbn; lia ..]
      | eapply timelyAt_snoc; [exact T | cbn; lia ..] ].
Qed.

(** X19: starting from a list in ascending order of [sentAt] with no message
    of the future, any sequence of sends during which no snapshot arrives
    and time does not run backwards leaves such a list again: messages are
    appended in the order of their times. *)
Theorem afterSends_timely (sends : list (string * SendWorld)) (s0 : System) :
  timely s0 ->
  Forall (fun p => undisturbed (snd p) /\ forward (snd p)) sends ->
  timely (afterSends sends s0).
Proof.
  revert s0. induction sends as [|[text w] sends IH]; intros s0 T F;
    cbn [afterSends]; [exact T|].
  inversion F as [|? ? [U W] F']; subst. cbn [snd] in U, W.
  apply IH; [|exact F']. now apply sendMessage_timely.
Qed.

Lemma afterSends_timely_witness :
  timely Samples.signedIn /\
  timely (afterSends [("hello", Samples.answered); ("again", Samples.rateLimited)]
            Samples.signedIn).
Proof.
  assert (T : timely Samples.signedIn) by (split; constructor).
  split; [exact T|].
  apply (afterSends_timely _ _ T).
  repeat constructor; cbn; lia.
Defined.

End Chronology.

(** ** The chat component *)

Section Trimming.






End Trimming.

Section Component.
Import ChatComponent.

Lemma notifyAll_frame (t : list Event) (c : Chat) :
  messageText (notifyAll t c) = messageText c /\
  messageError (notifyAll t c) = messageError c /\
  sendingMessage (notifyAll t c) = sendingMessage c /\
  subscribed (notifyAll t c) = subscribed c /\
  routerUrl (notifyAll t c) = routerUrl c.
Proof.
  unfold notifyAll. revert c.
  induction t as [|e t IH]; intros c; cbn [fold_left]; [repeat split|].
  destruct (IH (notify e c)) as (A & B & C & D & E).
  rewrite A, B, C, D, E. clear.
  unfold notify, onMessages, onResponding.
  destruct (subscribed c) eqn:S;
    [destruct e as [l | [|] | | | | |]; cbn|];
    repeat split; exact S.
Qed.


(** X20: [Chat.sendMessage] never fails and always ends with
    [sendingMessage] false.  With a blank input it does nothing at all, not
    even for a visitor who is not signed in.  Otherwise it passes the
    trimmed input to the service; when the service resolves the input is
    empty and no error is shown, and when it rejects the trimmed input is
    back in the field and an error text that is not empty is shown: the
    message of the error, or 'Error sending message' when that is empty. *)
Theorem Chat_sendMessage_settles (c : Chat) (w : ChatService.SendWorld)
    (s : System) :
  let st := sendMessage c w s in
  let text := JS.trim (messageText c) in
  let r := ChatService.sendMessage text w s in
  if JS.truthy text then
    outcome (services st) = Resolved tt /\
    final (services st) = final r /\
    sendingMessage (component st) = false /\
    match outcome r with
    | Resolved _ =>
        messageText (component st) = EmptyString /\
        messageError (component st) = EmptyString
    | Rejected e =>
        messageText (component st) = text /\
        messageError (component st) =
          (if JS.truthy (message e) then message e else "Error sending message") /\
        JS.truthy (messageError (component st)) = true
    end
  else st = mkStep c (mkRun (Resolved tt) s []).
Proof.
  cbv zeta. unfold sendMessage.
  destruct (JS.truthy (JS.trim (messageText c))); cbn [negb]; [|reflexivity].
  cbn [messageText set_sendingMessage set_messageError].
  destruct (ChatService.sendMessage (JS.trim (messageText c)) w s)
    as [[[]|e] s' t]; cbn.
  - destruct (notifyAll_frame t
                (set_messageText EmptyString
                   (set_sendingMessage true (set_messageError EmptyString c))))
      as (A & B & _).
    rewrite A, B. repeat split.
  - repeat split.
    destruct (JS.truthy (message e)) eqn:T; [exact T | reflexivity].
Qed.

Lemma sendMessage_in_step (text : string) (w : ChatService.SendWorld)
    (s : System) (c : Chat) :
  inStep c s ->
  inStep (notifyAll (trace (ChatService.sendMessage text w s)) c)
         (final (ChatService.sendMessage text w s)).
Proof.
  destruct c as [u ms mt sm at_ lh me sub scroll url].
  unfold inStep. cbn. intros (-> & -> & ->).
  unfold_send; cbn; split_world; repeat split.
Qed.

(** X21: a component that has subscribed and shows what the subjects of the
    service hold still does so when its [sendMessage] has settled, whatever
    the input and whatever the world does: its list is the list of the
    service and its typing indicator is the busy flag. *)
Theorem Chat_sendMessage_keeps_in_step (c : Chat) (w : ChatService.SendWorld)
    (s : System) :
  inStep c s ->
  inStep (component (sendMessage c w s)) (final (services (sendMessage c w s))).
Proof.
  intros H. unfold sendMessage.
  destruct (JS.truthy (JS.trim (messageText c))); cbn [negb]; [|exact H].
  cbn [messageText set_sendingMessage set_messageError].
  pose proof (sendMessage_in_step (JS.trim (messageText c)) w s
                (set_messageText EmptyString
                   (set_sendingMessage true (set_messageError EmptyString c))))
    as K.
  destruct (ChatService.sendMessage (JS.trim (messageText c)) w s)
    as [[[]|e] s' t]; cbn [component services final trace] in *;
    apply K; exact H.
Qed.

Lemma Chat_sendMessage_keeps_in_step_witness :
  inStep (MoreSamples.typing "hello") Samples.signedIn /\
  messages (component (sendMessage (MoreSamples.typing "hello")
                         Samples.answered Samples.signedIn)) =
  subjectMessages (final (services (sendMessage (MoreSamples.typing "hello")
                                      Samples.answered Samples.signedIn))).
Proof.
  assert (H : inStep (MoreSamples.typing "hello") Samples.signedIn)
    by (repeat split).
  split; [exact H|].
  exact (proj1 (proj2 (Chat_sendMessage_keeps_in_step _ Samples.answered _ H))).
Defined.




(** X24: [ngOnInit] never fails.  For a visitor who is not signed in it
    asks for [/auth], shows its loading error, and neither touches the
    service nor subscribes.  For a signed-in user it ends subscribed and
    showing what the subjects hold, with its own loading indicator off
    although the service still waits for the first snapshot. *)
Theorem Chat_ngOnInit_outcomes (c : Chat) (n : Navigation) (s : System) :
  let st := ngOnInit c n s in
  outcome (services st) = Resolved tt /\
  match currentUser s with
  | None =>
      final (services st) = s /\
      subscribed (component st) = subscribed c /\
      messageError (component st) =
        "Error loading chat. Please try reloading the page." /\
      routerUrl (component st) =
        match n with Navigated => "/auth" | _ => routerUrl c end
  | Some u =>
      user (component st) = Some u /\
      inStep (component st) (final (services st)) /\
      loadingHistory (component st) = false /\
      Runtime.loadingHistory (final (services st)) = true /\
      messageError (component st) = messageError c /\
      routerUrl (component st) = routerUrl c
  end.
Proof.
  cbv zeta. destruct c as [u ms mt sm at_ lh me sub scroll url].
  unfold ngOnInit, ChatService.initializeChat, configureSubscriptions,
    onMessages, onResponding, navigate, inStep,
    bind, ret, read, update, after.
  cbn. destruct (currentUser s) as [v|]; cbn.
  - destruct (Runtime.loadingHistory s) eqn:L; cbn;
      destruct (assistantResponding s) eqn:R; cbn; rewrite ?L; repeat split.
  - destruct n; repeat split.
Qed.

End Component.
